(** * JoSIM Tools command line driver ([src/josim_tools/tools.py])

    A shallow embedding of the module [josim_tools.tools]: the module body
    (the [os.system] call that precedes the imports) and the function [run],
    which parses the command line, loads and validates the TOML
    configuration and dispatches on its [mode] to the verifier, the margin
    analysis, the yield analysis or the optimizer.

    The driver is effectful glue code.  It is embedded as a program in a
    small trace-and-exception monad: the trace records, in order, every
    action the driver performs on the outside world (console output, file
    access, calls into the components of the package), and the result is
    either a normal return or the Python exception that ends the run. *)

From Stdlib Require Import ZArith List String Ascii Bool Lia.
From Stdlib Require Import PrimFloat FloatOps SpecFloat.
Import ListNotations.

Open Scope string_scope.
Open Scope list_scope.
Open Scope Z_scope.

(** ** Python data *)

(** A Python [dict] with string keys.  Iteration follows insertion order and
    the driver relies on it, so a dictionary is the list of its items in
    insertion order. *)
Definition dict (V : Type) : Type := list (string * V).

(** [d[k]] as a lookup; [None] stands for the missing key. *)
Fixpoint dict_get {V : Type} (d : dict V) (k : string) : option V :=
  match d with
  | [] => None
  | (k', v) :: d' => if String.eqb k' k then Some v else dict_get d' k
  end.

(** [d[k] = v]: an existing key keeps its position, a new key goes last. *)
Fixpoint dict_set {V : Type} (d : dict V) (k : string) (v : V) : dict V :=
  match d with
  | [] => [(k, v)]
  | (k', v') :: d' =>
      if String.eqb k' k then (k', v) :: d' else (k', v') :: dict_set d' k v
  end.

(** [list(d.keys())] *)
Definition dict_keys {V : Type} (d : dict V) : list string := map fst d.

(** [len(x)] *)
Definition len {A : Type} (l : list A) : Z := Z.of_nat (List.length l).

(** [d.get(k, default)] *)
Definition dict_get_default {V : Type} (d : dict V) (k : string) (default : V) : V :=
  match dict_get d k with
  | Some v => v
  | None => default
  end.

(** What [toml.load] produces, and more generally the plain Python data the
    driver hands around: strings, integers, floats, booleans, lists and
    tables. *)
#[warnings="-register-all"]
Inductive value : Type :=
| VStr (s : string)
| VInt (n : Z)
| VFloat (x : float)
| VBool (b : bool)
| VList (l : list value)
| VTable (t : list (string * value)).

(** [v == s] for a string literal [s]: a value that is not a string is
    different from every string. *)
Definition value_eq_str (v : value) (s : string) : bool :=
  match v with
  | VStr s' => String.eqb s' s
  | _ => false
  end.

Infix "==" := value_eq_str (at level 70, no associativity).

(** ** Exceptions and the driver monad *)

Inductive exn : Type :=
| SystemExit (code : Z)
| KeyError (key : string)
| AttributeError (attr : string)
| IndexError
| ValueError
| ZeroDivisionError
| AssertionError (msg : string)
| FileNotFoundError (path : string)
| IsADirectoryError (path : string)
| PermissionError (path : string)
| OSError (name : string)
| UnicodeDecodeError
| TomlDecodeError
| SchemaValidationError (message : string)
| ComponentError (msg : string).

Inductive result (A : Type) : Type :=
| Ok (a : A)
| Raise (e : exn).

Arguments Ok {A} a.
Arguments Raise {A} e.

(** ** Configuration objects and results of the components

    The classes of the modules [configuration], [verify], [analysis] and
    [optimize] are used by [run] but defined elsewhere in the package.  Each
    class is a record with the attributes [run] reads, and a [settings]
    field for whatever else the object holds. *)

Module VerifyConfiguration.
Record t : Type := { settings : value }.
End VerifyConfiguration.

Module MarginAnalysisConfiguration.
Record t : Type := { min_search : float; max_search : float; settings : value }.
End MarginAnalysisConfiguration.

Module YieldAnalysisConfiguration.
Record t : Type := { num_samples : Z; settings : value }.
End YieldAnalysisConfiguration.

Module OptimizeConfiguration.
Record t : Type := { output : option string; settings : value }.
End OptimizeConfiguration.

Module MarginParameterConfiguration.
Record t : Type := { nominal : float; settings : value }.
End MarginParameterConfiguration.

Module OptimizerParameterConfiguration.
Record t : Type := { nominal : float; settings : value }.
End OptimizerParameterConfiguration.

Module YieldParameterConfiguration.
Record t : Type := { nominal : float; settings : value }.
End YieldParameterConfiguration.

(** Modelled from the spec: the result types of the components, whose
    classes are not in [tools.py] (spec, section 3).
    [VerificationOutcome] is [{passed, failure_time, failure_point}]; its
    truth value is [passed]. *)
Record VerificationOutcome : Type :=
  { passed : bool; failure_time : option float; failure_point : option value }.

(** Modelled from the spec: [MarginResult] is a lower and an upper bound per
    parameter (spec, section 3). *)
Definition MarginResult : Type := dict (float * float).

(** The margin analysis object after [analyse]: the result it returned and
    the two uncertainties it reports. *)
Record Analysed : Type :=
  { analysis_result : MarginResult;
    margin_uncertainty_lower : float;
    margin_uncertainty_upper : float }.

(** Modelled from the spec: [YieldResult] is [{num_success, num_total}]
    (spec, section 3); these are the counters of the yield analysis object
    after [sample]. *)
Record YieldResult : Type := { num_success : Z; num_total : Z }.

(** The parsed command line: [args.configuration] and [args.verbose]. *)
Record Args : Type := { configuration : string; verbose : bool }.

(** ** Calls into the package and observable events *)

(** A call from [run] into another module of the package, with its
    arguments.  An object is identified by the arguments of its
    constructor. *)
Inductive call : Type :=
| VerifyConfiguration_from_dict (d : value)
| MarginAnalysisConfiguration_from_dict (d : value)
| YieldAnalysisConfiguration_from_dict (d : value)
| OptimizeConfiguration_from_dict (d : value)
| MarginParameterConfiguration_from_dict (d : value)
| OptimizerParameterConfiguration_from_dict (d : value)
| YieldParameterConfiguration_from_dict (d : value)
| Verifier_init (vc : VerifyConfiguration.t)
| Verifier_verify (vc : VerifyConfiguration.t)
| MarginAnalysis_init (vc : VerifyConfiguration.t) (mc : MarginAnalysisConfiguration.t)
| MarginAnalysis_analyse (vc : VerifyConfiguration.t) (mc : MarginAnalysisConfiguration.t)
    (parameters : dict float) (num_threads : Z)
| print_margin_analysis_result (r : MarginResult) (lower upper : float)
    (left_size right_size : float)
| YieldAnalysis_init (vc : VerifyConfiguration.t)
    (yps : dict YieldParameterConfiguration.t)
| YieldAnalysis_sample (vc : VerifyConfiguration.t)
    (yps : dict YieldParameterConfiguration.t) (num_samples num_threads : Z)
| Optimizer_init (vc : VerifyConfiguration.t) (mc : MarginAnalysisConfiguration.t)
    (oc : OptimizeConfiguration.t) (ops : dict OptimizerParameterConfiguration.t)
    (verbose : bool)
| Optimizer_optimize (vc : VerifyConfiguration.t) (mc : MarginAnalysisConfiguration.t)
    (oc : OptimizeConfiguration.t) (ops : dict OptimizerParameterConfiguration.t)
    (verbose : bool) (initial : dict float)
| write_file_with_updated_parameters (vc : VerifyConfiguration.t)
    (path : string) (point : list float).

(** What the driver does to the outside world.  [PrintLine template args] is
    [print(template.format(...))] with the listed arguments. *)
Inductive event : Type :=
| OsSystem (command : string)
| ParseArgs
| PrintLine (template : string) (args : list value)
| TomlLoad (path : string)
| SchemaValidate (instance : dict value)
| Call (c : call).

(** A computation of the driver: the events it performs, in order, and how
    it ends. *)
Definition M (A : Type) : Type := (list event * result A)%type.

Definition ret {A : Type} (a : A) : M A := ([], Ok a).

Definition raise {A : Type} (e : exn) : M A := ([], Raise e).

Definition emit (ev : event) : M unit := ([ev], Ok tt).

Definition bind {A B : Type} (m : M A) (f : A -> M B) : M B :=
  match m with
  | (t, Ok a) => let (t', r) := f a in (t ++ t', r)
  | (t, Raise e) => (t, Raise e)
  end.

Notation "x <- m ;; k" := (bind m (fun x => k))
  (at level 61, m at next level, right associativity).
Notation "m ;; k" := (bind m (fun _ => k))
  (at level 61, right associativity).

Definition trace {A : Type} (m : M A) : list event := fst m.

Definition outcome {A : Type} (m : M A) : result A := snd m.

(** [try: body except ...: handler]; the handler chooses the exceptions it
    catches. *)
Definition try_except {A : Type} (body : M A) (handler : exn -> option (M A)) : M A :=
  match body with
  | (t, Raise e) =>
      match handler e with
      | Some h => let (t', r) := h in (t ++ t', r)
      | None => (t, Raise e)
      end
  | done => done
  end.

(** [for a in l: s = body(a, s)] *)
Fixpoint for_each {A S : Type} (l : list A) (body : A -> S -> M S) (s : S) : M S :=
  match l with
  | [] => ret s
  | a :: l' => s' <- body a s ;; for_each l' body s'
  end.

Definition print (template : string) (args : list value) : M unit :=
  emit (PrintLine template args).

(** The builtin [exit(code)] raises [SystemExit(code)]. *)
Definition exit {A : Type} (code : Z) : M A := raise (SystemExit code).

(** [d[k]] raising [KeyError]. *)
Definition getitem {V : Type} (d : dict V) (k : string) : M V :=
  match dict_get d k with
  | Some v => ret v
  | None => raise (KeyError k)
  end.

(** [v.items()]: only a table has the method. *)
Definition items (v : value) : M (dict value) :=
  match v with
  | VTable t => ret t
  | _ => raise (AttributeError "items")
  end.

(** [l.index(x)]: the first position of [x], [ValueError] if there is none. *)
Fixpoint list_index (l : list string) (x : string) : option nat :=
  match l with
  | [] => None
  | y :: l' =>
      if String.eqb y x then Some O
      else match list_index l' x with
           | Some i => Some (S i)
           | None => None
           end
  end.

Definition index_of (l : list string) (x : string) : M nat :=
  match list_index l x with
  | Some i => ret i
  | None => raise ValueError
  end.

(** [l[i]] for a non-negative index, raising [IndexError] past the end. *)
Definition list_getitem {A : Type} (l : list A) (i : nat) : M A :=
  match nth_error l i with
  | Some a => ret a
  | None => raise IndexError
  end.

(** [enumerate(l)] *)
Fixpoint enumerate_from {A : Type} (i : nat) (l : list A) : list (nat * A) :=
  match l with
  | [] => []
  | a :: l' => (i, a) :: enumerate_from (S i) l'
  end.

Definition enumerate {A : Type} (l : list A) : list (nat * A) := enumerate_from O l.

(** The exit status of the interpreter: 0 after a normal return, the code
    of a [SystemExit] reduced to eight bits as the operating system does,
    and 1 after any other uncaught exception. *)
Definition exit_status {A : Type} (r : result A) : Z :=
  match r with
  | Ok _ => 0
  | Raise (SystemExit code) => code mod 256
  | Raise _ => 1
  end.

(** A pure computation that may raise, as a computation of the driver. *)
Definition lift {A : Type} (r : result A) : M A := ([], r).

(** ** Numbers *)

(** [float(n)] for an integer [n], rounded to the nearest double. *)
Definition float_of_int (n : Z) : float :=
  SF2Prim (binary_normalize prec emax n 0 false).

(** [a / b] on integers: true division, which raises on a zero divisor.
    The quotient is the division of the two converted operands, which is
    Python's result for operands below [2^53] in magnitude. *)
Definition int_truediv (a b : Z) : result float :=
  if b =? 0 then Raise ZeroDivisionError
  else Ok (PrimFloat.div (float_of_int a) (float_of_int b)).

(** Modelled from the spec: [YieldAnalysis.percentage], a method of a class
    of the module [analysis], which is not in [tools.py].  Spec, section
    4.2: the percentage is [num_success / num_total], and it is defined as
    [0] when [num_total == 0]. *)
Definition YieldAnalysis_percentage (r : YieldResult) : result float :=
  if num_total r =? 0 then Ok 0%float
  else int_truediv (num_success r) (num_total r).

(** The four modes of the dispatch, lines 60, 77, 108 and 133. *)
Definition MODES : list string := ["verify"; "margin"; "yield"; "optimize"].

(** Modelled from the spec: the constraint that [schema.CONFIG] (the module
    [schema] is not in [tools.py]) puts on the mode.  Spec, section 6: a
    configuration selects one mode, [verify | margin | yield | optimize],
    and other shapes are rejected by schema validation. *)
Definition schema_mode (instance : dict value) : bool :=
  match dict_get instance "mode" with
  | Some (VStr m) => existsb (String.eqb m) MODES
  | _ => false
  end.

(** ** Files *)

(** What can go wrong when a path that exists is opened and decoded as
    UTF-8 text: it is a directory, it may not be read, the operating system
    reports another error, or its bytes are not UTF-8. *)
Inductive read_failure : Type :=
| IsADirectory
| PermissionDenied
| OtherOSError (name : string)
| NotUTF8.

(** The exception that [open] and [read] raise for a failure. *)
Definition read_exception (path : string) (f : read_failure) : exn :=
  match f with
  | IsADirectory => IsADirectoryError path
  | PermissionDenied => PermissionError path
  | OtherOSError name => OSError name
  | NotUTF8 => UnicodeDecodeError
  end.

(** ** The outside world

    Everything [run] depends on and does not define: the installed package
    version, the command line, the file system, the TOML parser, the schema
    validator, the number of CPUs, and the other modules of the package.
    A call into the package either fails ([fails] gives the message of the
    exception) or returns the value given by the corresponding field. *)
Record World : Type :=
  { __version__ : string;
    (** [parser.parse_args()]: the arguments, or the code it exits with *)
    command_line : Args + Z;
    (** the failure of opening and decoding what is at a path, [None] when
        it can be read or when nothing is there *)
    read_error : string -> option read_failure;
    (** the text of a file, [None] when there is no such file *)
    file_text : string -> option string;
    (** the TOML parser, [None] on a syntax error *)
    toml_loads : string -> option (dict value);
    (** [jsonschema.validate] against [schema.CONFIG]: the message of the
        [ValidationError] it raises, [None] when the instance is valid *)
    validation_error : dict value -> option string;
    (** [multiprocessing.cpu_count()] *)
    cpu_count : Z;
    fails : call -> option string;
    verify_configuration_of : value -> VerifyConfiguration.t;
    margin_configuration_of : value -> MarginAnalysisConfiguration.t;
    yield_configuration_of : value -> YieldAnalysisConfiguration.t;
    optimize_configuration_of : value -> OptimizeConfiguration.t;
    margin_parameter_of : value -> MarginParameterConfiguration.t;
    optimizer_parameter_of : value -> OptimizerParameterConfiguration.t;
    yield_parameter_of : value -> YieldParameterConfiguration.t;
    verified : VerifyConfiguration.t -> VerificationOutcome;
    analysed :
      VerifyConfiguration.t -> MarginAnalysisConfiguration.t ->
      dict float -> Z -> Analysed;
    sampled :
      VerifyConfiguration.t -> dict YieldParameterConfiguration.t ->
      Z -> Z -> YieldResult;
    optimized :
      VerifyConfiguration.t -> MarginAnalysisConfiguration.t ->
      OptimizeConfiguration.t -> dict OptimizerParameterConfiguration.t ->
      bool -> dict float -> list float }.

(** ** The driver *)

Section Driver.

Variable w : World.

(** A call into the package: it is recorded, then fails or returns. *)
Definition invoke {A : Type} (c : call) (r : A) : M A :=
  emit (Call c) ;;
  match fails w c with
  | Some msg => raise (ComponentError msg)
  | None => ret r
  end.

(** [parser.parse_args()], lines 32-43. *)
Definition parse_args : M Args :=
  emit ParseArgs ;;
  match command_line w with
  | inl args => ret args
  | inr code => exit code
  end.

(** [toml_load(path)], line 49: the file is opened and read as UTF-8 text,
    then parsed; each step raises on failure. *)
Definition toml_load (path : string) : M (dict value) :=
  emit (TomlLoad path) ;;
  match read_error w path with
  | Some f => raise (read_exception path f)
  | None =>
      match file_text w path with
      | None => raise (FileNotFoundError path)
      | Some text =>
          match toml_loads w text with
          | None => raise TomlDecodeError
          | Some d => ret d
          end
      end
  end.

(** [schema_validate(instance=configuration, schema=SCHEMA_CONFIG)], line 52. *)
Definition schema_validate (instance : dict value) : M unit :=
  emit (SchemaValidate instance) ;;
  match validation_error w instance with
  | Some message => raise (SchemaValidationError message)
  | None => ret tt
  end.

(** Lines 84-87, 115-118, 145-148 and 177-180: the loop
    [for key, item in configuration["parameters"].items(): d[key] = C.from_dict(item)],
    the same for the three parameter classes [C]. *)
Definition parameters_from_dict {C : Type} (from_dict : value -> M C) (its : dict value) : M (dict C) :=
  for_each its
    (fun '(key, item) acc => c <- from_dict item ;; ret (dict_set acc key c))
    [].

Definition margin_parameters_of : dict value -> M (dict MarginParameterConfiguration.t) :=
  parameters_from_dict
    (fun item => invoke (MarginParameterConfiguration_from_dict item) (margin_parameter_of w item)).

Definition yield_parameters_of : dict value -> M (dict YieldParameterConfiguration.t) :=
  parameters_from_dict
    (fun item => invoke (YieldParameterConfiguration_from_dict item) (yield_parameter_of w item)).

Definition optimize_parameters_of : dict value -> M (dict OptimizerParameterConfiguration.t) :=
  parameters_from_dict
    (fun item => invoke (OptimizerParameterConfiguration_from_dict item) (optimizer_parameter_of w item)).

(** Lines 93-96: [margin_analysis_parameters[key] = item.nominal]. *)
Definition margin_nominals (margin_parameters : dict MarginParameterConfiguration.t) : dict float :=
  fold_left
    (fun acc '(key, item) => dict_set acc key (MarginParameterConfiguration.nominal item))
    margin_parameters [].

(** Lines 158-161: [optimization_parameters[key] = item.nominal]. *)
Definition optimizer_nominals (optimize_parameters : dict OptimizerParameterConfiguration.t) : dict float :=
  fold_left
    (fun acc '(key, item) => dict_set acc key (OptimizerParameterConfiguration.nominal item))
    optimize_parameters [].

(** Lines 186-191: the optimized point is given back its names, by the
    position of each key in [keys_]. *)
Definition reassociate (keys_ : list string) (optimized_point : list float) : M (dict float) :=
  for_each (enumerate keys_)
    (fun '(_, key) acc =>
       index <- index_of keys_ key ;;
       x <- list_getitem optimized_point index ;;
       ret (dict_set acc key x))
    [].

(** Lines 60-75. *)
Definition run_verify (configuration : dict value) : M unit :=
  print "=== Verify circuit operation ===" [] ;;
  d <- getitem configuration "verify" ;;
  verify_configuration <- invoke (VerifyConfiguration_from_dict d) (verify_configuration_of w d) ;;
  invoke (Verifier_init verify_configuration) tt ;;
  output <- invoke (Verifier_verify verify_configuration) (verified w verify_configuration) ;;
  if passed output then print "SUCCESS" []
  else
    print "FAILURE" [] ;;
    match failure_time output with
    | Some t => print "  TIME  : {}" [VFloat t]
    | None => ret tt
    end ;;
    match failure_point output with
    | Some p => print "  optimized_point : {}" [p]
    | None => ret tt
    end.

(** Lines 77-106. *)
Definition run_margin (configuration : dict value) : M unit :=
  print "=== Margin analysis ===" [] ;;
  d <- getitem configuration "verify" ;;
  verify_configuration <- invoke (VerifyConfiguration_from_dict d) (verify_configuration_of w d) ;;
  let m := dict_get_default configuration "margin" (VTable []) in
  margin_configuration <-
    invoke (MarginAnalysisConfiguration_from_dict m) (margin_configuration_of w m) ;;
  ps <- getitem configuration "parameters" ;;
  its <- items ps ;;
  margin_parameters <- margin_parameters_of its ;;
  invoke (MarginAnalysis_init verify_configuration margin_configuration) tt ;;
  let num_threads := Z.min (2 * len margin_parameters) (cpu_count w) in
  let margin_analysis_parameters := margin_nominals margin_parameters in
  a <- invoke
         (MarginAnalysis_analyse verify_configuration margin_configuration
            margin_analysis_parameters num_threads)
         (analysed w verify_configuration margin_configuration
            margin_analysis_parameters num_threads) ;;
  invoke
    (print_margin_analysis_result (analysis_result a)
       (margin_uncertainty_lower a) (margin_uncertainty_upper a)
       (MarginAnalysisConfiguration.min_search margin_configuration)
       (MarginAnalysisConfiguration.max_search margin_configuration))
    tt.

(** Lines 108-132. *)
Definition run_yield (configuration : dict value) : M unit :=
  print "=== Yield analysis ===" [] ;;
  d <- getitem configuration "verify" ;;
  verify_configuration <- invoke (VerifyConfiguration_from_dict d) (verify_configuration_of w d) ;;
  y <- getitem configuration "yield" ;;
  yield_configuration <-
    invoke (YieldAnalysisConfiguration_from_dict y) (yield_configuration_of w y) ;;
  ps <- getitem configuration "parameters" ;;
  its <- items ps ;;
  yield_parameters <- yield_parameters_of its ;;
  let num_samples := YieldAnalysisConfiguration.num_samples yield_configuration in
  let num_threads := Z.min num_samples (cpu_count w) in
  invoke (YieldAnalysis_init verify_configuration yield_parameters) tt ;;
  r <- invoke
         (YieldAnalysis_sample verify_configuration yield_parameters num_samples num_threads)
         (sampled w verify_configuration yield_parameters num_samples num_threads) ;;
  percentage <- lift (YieldAnalysis_percentage r) ;;
  print "Yield: {} / {} = {:.1f} %"
    [VInt (num_success r); VInt (num_total r); VFloat (PrimFloat.mul percentage 100)].

(** Lines 133-201. *)
Definition run_optimize (args : Args) (configuration : dict value) : M unit :=
  print "=== Optimize circuit ===" [] ;;
  d <- getitem configuration "verify" ;;
  verify_configuration <- invoke (VerifyConfiguration_from_dict d) (verify_configuration_of w d) ;;
  let m := dict_get_default configuration "margin" (VTable []) in
  margin_configuration <-
    invoke (MarginAnalysisConfiguration_from_dict m) (margin_configuration_of w m) ;;
  o <- getitem configuration "optimize" ;;
  optimize_configuration <-
    invoke (OptimizeConfiguration_from_dict o) (optimize_configuration_of w o) ;;
  ps <- getitem configuration "parameters" ;;
  its <- items ps ;;
  optimize_parameters <- optimize_parameters_of its ;;
  invoke
    (Optimizer_init verify_configuration margin_configuration optimize_configuration
       optimize_parameters (verbose args))
    tt ;;
  let optimization_parameters := optimizer_nominals optimize_parameters in
  optimized_point <-
    invoke
      (Optimizer_optimize verify_configuration margin_configuration optimize_configuration
         optimize_parameters (verbose args) optimization_parameters)
      (optimized w verify_configuration margin_configuration optimize_configuration
         optimize_parameters (verbose args) optimization_parameters) ;;
  match OptimizeConfiguration.output optimize_configuration with
  | Some output_file =>
      invoke
        (write_file_with_updated_parameters verify_configuration output_file optimized_point)
        tt
  | None => ret tt
  end ;;
  print "=== Optimized circuit margin analysis ===" [] ;;
  d <- getitem configuration "verify" ;;
  verify_configuration <- invoke (VerifyConfiguration_from_dict d) (verify_configuration_of w d) ;;
  let m := dict_get_default configuration "margin" (VTable []) in
  margin_configuration <-
    invoke (MarginAnalysisConfiguration_from_dict m) (margin_configuration_of w m) ;;
  ps <- getitem configuration "parameters" ;;
  its <- items ps ;;
  margin_parameters <- margin_parameters_of its ;;
  invoke (MarginAnalysis_init verify_configuration margin_configuration) tt ;;
  let num_threads := Z.min (2 * len margin_parameters) (cpu_count w) in
  let keys_ := dict_keys optimize_parameters in
  margin_analysis_parameters <- reassociate keys_ optimized_point ;;
  a <- invoke
         (MarginAnalysis_analyse verify_configuration margin_configuration
            margin_analysis_parameters num_threads)
         (analysed w verify_configuration margin_configuration
            margin_analysis_parameters num_threads) ;;
  invoke
    (print_margin_analysis_result (analysis_result a)
       (margin_uncertainty_lower a) (margin_uncertainty_upper a)
       (MarginAnalysisConfiguration.min_search margin_configuration)
       (MarginAnalysisConfiguration.max_search margin_configuration))
    tt.

(** Lines 51-56: the validation and its handler. *)
Definition validate (configuration : dict value) : M unit :=
  try_except (schema_validate configuration)
    (fun error =>
       match error with
       | SchemaValidationError message =>
           Some (print "ERROR: configuration file validation failed" [] ;;
                 print "       reason: {}" [VStr message] ;;
                 exit (-1))
       | _ => None
       end).

(** Lines 58-204: the dispatch on the mode. *)
Definition dispatch (args : Args) (configuration : dict value) : M unit :=
  mode <- getitem configuration "mode" ;;
  if mode == "verify" then run_verify configuration
  else if mode == "margin" then run_margin configuration
  else if mode == "yield" then run_yield configuration
  else if mode == "optimize" then run_optimize args configuration
  else raise (AssertionError "INTERNAL ERROR: UNREACHABLE CODE in tools.py").

(** Lines 30-204. *)
Definition run : M unit :=
  args <- parse_args ;;
  print "JoSIM Tools {}" [VStr (__version__ w)] ;;
  (if verbose args then print "Verbose mode enabled" [] else ret tt) ;;
  configuration <- toml_load (configuration args) ;;
  validate configuration ;;
  dispatch args configuration.

(** The module body: line 3 runs when the module is loaded, before the
    imports and before [run] is called (line 208, or the console script). *)
Definition tools_module : M unit :=
  emit (OsSystem "") ;;
  run.

End Driver.

(** * Vocabulary of the properties *)

(** ** Dictionaries *)

(** The keys after [d[k] = v], as a function of the keys before. *)
Definition add_key (ks : list string) (k : string) : list string :=
  if existsb (fun k' => String.eqb k' k) ks then ks else ks ++ [k].

(** The key order of a dictionary filled from scratch by assignments to the
    keys [ks] in turn. *)
Definition key_order (ks : list string) : list string := fold_left add_key ks [].


(** ** A program logic for the driver

    [triple P E m Q]: every event of [m] satisfies [P]; if [m] returns, its
    value satisfies [Q]; if it raises, the exception satisfies [E]. *)
Definition triple {A : Type} (P : event -> Prop) (E : exn -> Prop)
  (m : M A) (Q : A -> Prop) : Prop :=
  Forall P (trace m) /\
  match outcome m with
  | Ok a => Q a
  | Raise e => E e
  end.

(** Events and exceptions on which a proof puts no condition, and the
    exceptions other than the [AssertionError] of the dispatch. *)
Definition any_event (ev : event) : Prop := True.

Definition any_exception (e : exn) : Prop := True.

Definition not_assertion (e : exn) : Prop := forall msg, e <> AssertionError msg.

(** ** Worlds in which the analysis completes

    No call into the package fails, and the optimizer returns a point that
    is positionally aligned with the vector it was given (spec, section
    4.3). *)
Record Reliable (w : World) : Prop :=
  { no_failure : forall c, fails w c = None;
    aligned :
      forall vc mc oc ops vb initial,
        List.length (optimized w vc mc oc ops vb initial) = List.length initial }.

(** ** The configuration of a run *)

(** The configuration that [toml_load(args.configuration)] returns in a
    world, when the command line parses and the file loads. *)
Definition loaded_configuration (w : World) : option (dict value) :=
  match command_line w with
  | inl args =>
      match read_error w (configuration args) with
      | Some _ => None
      | None =>
          match file_text w (configuration args) with
          | Some text => toml_loads w text
          | None => None
          end
      end
  | inr _ => None
  end.

(** The exception that [toml_load(path)] raises when it does not return. *)
Definition load_error (w : World) (path : string) : exn :=
  match read_error w path with
  | Some f => read_exception path f
  | None =>
      match file_text w path with
      | None => FileNotFoundError path
      | Some _ => TomlDecodeError
      end
  end.

(** The number of parameters of the run: the number of names in the
    [parameters] table of its configuration. *)
Definition number_of_parameters (w : World) : Z :=
  match loaded_configuration w with
  | Some cfg =>
      match dict_get cfg "parameters" with
      | Some (VTable its) => len (key_order (dict_keys its))
      | _ => 0
      end
  | None => 0
  end.

(** The number of samples of the run: [num_samples] of the yield
    configuration built from the [yield] table. *)
Definition configured_num_samples (w : World) : Z :=
  match loaded_configuration w with
  | Some cfg =>
      match dict_get cfg "yield" with
      | Some y => YieldAnalysisConfiguration.num_samples (yield_configuration_of w y)
      | None => 0
      end
  | None => 0
  end.

(** The worker count policy, as a property of one event: a margin analysis
    is given the named parameters and [min(2 * number of parameters,
    cpu_count())] workers, a yield analysis the configured number of
    samples and [min(num_samples, cpu_count())] workers; no parameters or no
    samples means no workers. *)
Definition worker_policy (w : World) (ev : event) : Prop :=
  match ev with
  | Call (MarginAnalysis_analyse _ _ parameters num_threads) =>
      len parameters = number_of_parameters w /\
      num_threads = Z.min (2 * number_of_parameters w) (cpu_count w) /\
      (number_of_parameters w = 0 -> num_threads = 0)
  | Call (YieldAnalysis_sample _ _ num_samples num_threads) =>
      num_samples = configured_num_samples w /\
      num_threads = Z.min num_samples (cpu_count w) /\
      (num_samples = 0 -> num_threads = 0)
  | _ => True
  end.

(** ** The trace of a run that completes *)

(** The dictionary that the loop over the items fills when no [from_dict]
    fails. *)
Definition dict_of_items {C : Type} (from_dict : value -> C) (its : dict value) : dict C :=
  fold_left (fun acc '(key, item) => dict_set acc key (from_dict item)) its [].

(** The [from_dict] calls of that loop. *)
Definition from_dict_events (from_dict : value -> call) (its : dict value) : list event :=
  map (fun '(_, item) => Call (from_dict item)) its.

(** What a run does before it dispatches on the mode. *)
Definition preamble (w : World) (args : Args) : list event :=
  [OsSystem ""; ParseArgs; PrintLine "JoSIM Tools {}" [VStr (__version__ w)]]
  ++ (if verbose args then [PrintLine "Verbose mode enabled" []] else [])
  ++ [TomlLoad (configuration args)].

(** The lines that report a failed verification after the line FAILURE. *)
Definition failure_metadata (output : VerificationOutcome) : list event :=
  match failure_time output with
  | Some t => [PrintLine "  TIME  : {}" [VFloat t]]
  | None => []
  end
  ++ match failure_point output with
     | Some p => [PrintLine "  optimized_point : {}" [p]]
     | None => []
     end.

Definition verify_report (output : VerificationOutcome) : list event :=
  if passed output then [PrintLine "SUCCESS" []]
  else PrintLine "FAILURE" [] :: failure_metadata output.

(** A full margin analysis of the parameters [parameters], as [run] does it
    from the tables [d] (verify), [m] (margin) and [its] (parameters):
    the configuration objects are built, the analysis is constructed and
    run, and its result is printed. *)
Definition margin_analysis_trace (w : World) (d m : value) (its : dict value)
  (parameters : dict float) : list event :=
  let vc := verify_configuration_of w d in
  let mc := margin_configuration_of w m in
  let margin_parameters := dict_of_items (margin_parameter_of w) its in
  let num_threads := Z.min (2 * len margin_parameters) (cpu_count w) in
  let a := analysed w vc mc parameters num_threads in
  Call (VerifyConfiguration_from_dict d)
  :: Call (MarginAnalysisConfiguration_from_dict m)
  :: from_dict_events MarginParameterConfiguration_from_dict its
  ++ [Call (MarginAnalysis_init vc mc);
      Call (MarginAnalysis_analyse vc mc parameters num_threads);
      Call (print_margin_analysis_result (analysis_result a)
              (margin_uncertainty_lower a) (margin_uncertainty_upper a)
              (MarginAnalysisConfiguration.min_search mc)
              (MarginAnalysisConfiguration.max_search mc))].

(** The optimized point of a run in optimize mode, from the tables [d]
    (verify), [m] (margin), [o] (optimize) and [its] (parameters): what the
    optimizer returns for the nominal values. *)
Definition optimized_point_of (w : World) (args : Args) (d m o : value)
  (its : dict value) : list float :=
  let ops := dict_of_items (optimizer_parameter_of w) its in
  optimized w (verify_configuration_of w d) (margin_configuration_of w m)
    (optimize_configuration_of w o) ops (verbose args) (optimizer_nominals ops).

(** The calls that write the updated netlist: one when an output path is
    configured, none otherwise. *)
Definition write_events (w : World) (args : Args) (d m o : value)
  (its : dict value) : list event :=
  match OptimizeConfiguration.output (optimize_configuration_of w o) with
  | Some output_file =>
      [Call (write_file_with_updated_parameters (verify_configuration_of w d)
               output_file (optimized_point_of w args d m o its))]
  | None => []
  end.

(** The optimized point with its names: the keys of [optimize_parameters]
    zipped with the point. *)
Definition named_point (w : World) (args : Args) (d m o : value)
  (its : dict value) : dict float :=
  combine (dict_keys (dict_of_items (optimizer_parameter_of w) its))
    (optimized_point_of w args d m o its).

(** Optimize mode: the configuration objects are built, the optimizer is
    constructed and run, the netlist is written if asked for, and a full
    margin analysis of the optimized point follows. *)
Definition optimize_trace (w : World) (args : Args) (d m o : value)
  (its : dict value) : list event :=
  let vc := verify_configuration_of w d in
  let mc := margin_configuration_of w m in
  let oc := optimize_configuration_of w o in
  let ops := dict_of_items (optimizer_parameter_of w) its in
  PrintLine "=== Optimize circuit ===" []
  :: Call (VerifyConfiguration_from_dict d)
  :: Call (MarginAnalysisConfiguration_from_dict m)
  :: Call (OptimizeConfiguration_from_dict o)
  :: from_dict_events OptimizerParameterConfiguration_from_dict its
  ++ Call (Optimizer_init vc mc oc ops (verbose args))
  :: Call (Optimizer_optimize vc mc oc ops (verbose args) (optimizer_nominals ops))
  :: write_events w args d m o its
  ++ PrintLine "=== Optimized circuit margin analysis ===" []
  :: margin_analysis_trace w d m its (named_point w args d m o its).

(** The tables that [run] indexes in a mode: [verify] in every mode,
    [parameters] (a table) in every mode but verify, [yield] in yield mode
    and [optimize] in optimize mode. *)
Definition is_table (v : option value) : bool :=
  match v with
  | Some (VTable _) => true
  | _ => false
  end.

Definition present (v : option value) : bool :=
  match v with
  | Some _ => true
  | None => false
  end.

Definition tables_present (cfg : dict value) (mode : string) : bool :=
  present (dict_get cfg "verify")
  && (String.eqb mode "verify" || is_table (dict_get cfg "parameters"))
  && (negb (String.eqb mode "yield") || present (dict_get cfg "yield"))
  && (negb (String.eqb mode "optimize") || present (dict_get cfg "optimize")).


(** ** Example worlds

    A small installation used to run the driver on concrete inputs: the
    configuration objects read their attributes from the tables, the
    margin analysis reports every nominal value as both of its bounds, the
    yield analysis finds a given number of successes among the samples, and the optimizer moves every
    parameter up by one. *)

Definition table_get (v : value) (k : string) : option value :=
  match v with
  | VTable t => dict_get t k
  | _ => None
  end.

Definition float_attribute (v : value) (k : string) (default : float) : float :=
  match table_get v k with
  | Some (VFloat x) => x
  | _ => default
  end.

Definition example_world (command : Args + Z) (text : option string)
  (parsed : option (dict value)) (error : dict value -> option string)
  (output : VerificationOutcome) (successes : Z) : World :=
  {| __version__ := "1.0";
     command_line := command;
     read_error := fun _ => None;
     file_text := fun path => if String.eqb path "circuit.toml" then text else None;
     toml_loads := fun _ => parsed;
     validation_error := error;
     cpu_count := 8;
     fails := fun _ => None;
     verify_configuration_of := fun v => {| VerifyConfiguration.settings := v |};
     margin_configuration_of := fun v =>
       {| MarginAnalysisConfiguration.min_search := float_attribute v "min_search" 0.125;
          MarginAnalysisConfiguration.max_search := float_attribute v "max_search" 0.5;
          MarginAnalysisConfiguration.settings := v |};
     yield_configuration_of := fun v =>
       {| YieldAnalysisConfiguration.num_samples :=
            match table_get v "num_samples" with
            | Some (VInt n) => n
            | _ => 0
            end;
          YieldAnalysisConfiguration.settings := v |};
     optimize_configuration_of := fun v =>
       {| OptimizeConfiguration.output :=
            match table_get v "output" with
            | Some (VStr s) => Some s
            | _ => None
            end;
          OptimizeConfiguration.settings := v |};
     margin_parameter_of := fun v =>
       {| MarginParameterConfiguration.nominal := float_attribute v "nominal" 0;
          MarginParameterConfiguration.settings := v |};
     optimizer_parameter_of := fun v =>
       {| OptimizerParameterConfiguration.nominal := float_attribute v "nominal" 0;
          OptimizerParameterConfiguration.settings := v |};
     yield_parameter_of := fun v =>
       {| YieldParameterConfiguration.nominal := float_attribute v "nominal" 0;
          YieldParameterConfiguration.settings := v |};
     verified := fun _ => output;
     analysed := fun _ mc parameters _ =>
       {| analysis_result := map (fun '(key, x) => (key, (x, x))) parameters;
          margin_uncertainty_lower := MarginAnalysisConfiguration.min_search mc;
          margin_uncertainty_upper := MarginAnalysisConfiguration.min_search mc |};
     sampled := fun _ _ num_samples _ =>
       {| num_success := successes; num_total := num_samples |};
     optimized := fun _ _ _ _ _ initial => map (fun '(_, x) => PrimFloat.add x 1) initial |}.

(** The schema validator of the example worlds checks the mode. *)
Definition example_validation (instance : dict value) : option string :=
  if schema_mode instance then None else Some "'mode' is not one of the modes".

Definition example_args : Args := {| configuration := "circuit.toml"; verbose := false |}.

Definition example_parameters : dict value :=
  [("R1", VTable [("nominal", VFloat 1)]); ("L1", VTable [("nominal", VFloat 2)])].

(** A configuration with every table but [margin]. *)
Definition example_configuration (mode : string) : dict value :=
  [("mode", VStr mode);
   ("verify", VTable [("circuit", VStr "circuit.cir")]);
   ("yield", VTable [("num_samples", VInt 10)]);
   ("optimize", VTable [("output", VStr "optimized.cir")]);
   ("parameters", VTable example_parameters)].

Definition failed_verification : VerificationOutcome :=
  {| passed := false; failure_time := Some 1.5%float; failure_point := None |}.

(** The installation running on [example_configuration mode]. *)
Definition example_run (mode : string) : World :=
  example_world (inl example_args) (Some "mode = ...") (Some (example_configuration mode))
    example_validation failed_verification 8.

(** The same installation when the file named on the command line is
    missing. *)
Definition example_missing_file : World :=
  example_world (inl example_args) None None example_validation failed_verification 8.

(** The installation on a configuration without parameters and without
    samples. *)
Definition example_empty (mode : string) : World :=
  example_world (inl example_args) (Some "mode = ...")
    (Some [("mode", VStr mode);
           ("verify", VTable [("circuit", VStr "circuit.cir")]);
           ("yield", VTable [("num_samples", VInt 0)]);
           ("parameters", VTable [])])
    example_validation failed_verification 0.

(** ** More vocabulary: exceptions, tables and flags *)

(** The exceptions that the dispatch and the four modes can end in: a
    missing key among the five that [run] indexes, [items] on a value that
    is not a table, an index past the end of the optimized point, a
    failure inside the package, and the assertion of the last branch. *)
Definition driver_exception (e : exn) : Prop :=
  match e with
  | KeyError k => In k ["mode"; "verify"; "yield"; "optimize"; "parameters"]
  | AttributeError attr => attr = "items"
  | IndexError => True
  | ComponentError _ => True
  | AssertionError msg => msg = "INTERNAL ERROR: UNREACHABLE CODE in tools.py"
  | _ => False
  end.

(** The run of a world exits on a failed validation. *)
Definition validation_fails (w : World) : Prop :=
  exists cfg message,
    loaded_configuration w = Some cfg /\ validation_error w cfg = Some message.

(** The exceptions that a whole run of the model can end in: those of the
    dispatch, the exits of the argument parser and of the validation
    handler, and the failures of [toml_load]. *)
Definition run_exception (w : World) (e : exn) : Prop :=
  match e with
  | SystemExit code => command_line w = inr code \/ (code = -1 /\ validation_fails w)
  | FileNotFoundError _ | IsADirectoryError _ | PermissionError _ | OSError _
  | UnicodeDecodeError | TomlDecodeError =>
      exists args, command_line w = inl args /\ e = load_error w (configuration args)
  | _ => driver_exception e
  end.

(** The tables that each mode reads. *)
Definition mode_tables (mode : string) : list string :=
  if String.eqb mode "verify" then ["verify"]
  else if String.eqb mode "margin" then ["verify"; "margin"; "parameters"]
  else if String.eqb mode "yield" then ["verify"; "yield"; "parameters"]
  else if String.eqb mode "optimize" then ["verify"; "margin"; "optimize"; "parameters"]
  else [].

(** The calls that build a configuration object, as opposed to those that
    construct or use a component. *)
Definition configuration_call (c : call) : bool :=
  match c with
  | VerifyConfiguration_from_dict _
  | MarginAnalysisConfiguration_from_dict _
  | YieldAnalysisConfiguration_from_dict _
  | OptimizeConfiguration_from_dict _
  | MarginParameterConfiguration_from_dict _
  | OptimizerParameterConfiguration_from_dict _
  | YieldParameterConfiguration_from_dict _ => true
  | _ => false
  end.

Definition only_configuration_calls (ev : event) : Prop :=
  match ev with
  | Call c => configuration_call c = true
  | _ => True
  end.

(** When the netlist may be written: the run is in optimize mode, the
    output path is the configured one, the writer is that of the run's
    verify configuration, and the point is what the optimizer returned. *)
Definition write_policy (w : World) (ev : event) : Prop :=
  match ev with
  | Call (write_file_with_updated_parameters vc path point) =>
      exists args cfg d o its,
        command_line w = inl args /\
        loaded_configuration w = Some cfg /\
        dict_get cfg "mode" = Some (VStr "optimize") /\
        dict_get cfg "verify" = Some d /\
        dict_get cfg "optimize" = Some o /\
        dict_get cfg "parameters" = Some (VTable its) /\
        vc = verify_configuration_of w d /\
        OptimizeConfiguration.output (optimize_configuration_of w o) = Some path /\
        point = optimized_point_of w args d (dict_get_default cfg "margin" (VTable [])) o its
  | _ => True
  end.

(** The same world with the flag [--verbose] set or cleared on the command
    line. *)
Definition with_verbose (w : World) (flag : bool) : World :=
  {| __version__ := __version__ w;
     command_line :=
       match command_line w with
       | inl args => inl {| configuration := configuration args; verbose := flag |}
       | inr code => inr code
       end;
     read_error := read_error w;
     file_text := file_text w;
     toml_loads := toml_loads w;
     validation_error := validation_error w;
     cpu_count := cpu_count w;
     fails := fails w;
     verify_configuration_of := verify_configuration_of w;
     margin_configuration_of := margin_configuration_of w;
     yield_configuration_of := yield_configuration_of w;
     optimize_configuration_of := optimize_configuration_of w;
     margin_parameter_of := margin_parameter_of w;
     optimizer_parameter_of := optimizer_parameter_of w;
     yield_parameter_of := yield_parameter_of w;
     verified := verified w;
     analysed := analysed w;
     sampled := sampled w;
     optimized := optimized w |}.

(** The first half of optimize mode, up to the writing of the netlist, and
    the start of the second half, up to the construction of the margin
    analysis. *)
Definition optimize_until_reassociation (w : World) (args : Args) (d m o : value)
  (its : dict value) : list event :=
  let vc := verify_configuration_of w d in
  let mc := margin_configuration_of w m in
  let oc := optimize_configuration_of w o in
  let ops := dict_of_items (optimizer_parameter_of w) its in
  PrintLine "=== Optimize circuit ===" []
  :: Call (VerifyConfiguration_from_dict d)
  :: Call (MarginAnalysisConfiguration_from_dict m)
  :: Call (OptimizeConfiguration_from_dict o)
  :: from_dict_events OptimizerParameterConfiguration_from_dict its
  ++ Call (Optimizer_init vc mc oc ops (verbose args))
  :: Call (Optimizer_optimize vc mc oc ops (verbose args) (optimizer_nominals ops))
  :: write_events w args d m o its
  ++ PrintLine "=== Optimized circuit margin analysis ===" []
  :: Call (VerifyConfiguration_from_dict d)
  :: Call (MarginAnalysisConfiguration_from_dict m)
  :: from_dict_events MarginParameterConfiguration_from_dict its
  ++ [Call (MarginAnalysis_init vc mc)].

(** An installation whose optimizer returns a single value, whatever the
    number of parameters. *)
Definition example_short_optimizer : World :=
  let w := example_run "optimize" in
  {| __version__ := __version__ w;
     command_line := command_line w;
     read_error := read_error w;
     file_text := file_text w;
     toml_loads := toml_loads w;
     validation_error := validation_error w;
     cpu_count := cpu_count w;
     fails := fails w;
     verify_configuration_of := verify_configuration_of w;
     margin_configuration_of := margin_configuration_of w;
     yield_configuration_of := yield_configuration_of w;
     optimize_configuration_of := optimize_configuration_of w;
     margin_parameter_of := margin_parameter_of w;
     optimizer_parameter_of := optimizer_parameter_of w;
     yield_parameter_of := yield_parameter_of w;
     verified := verified w;
     analysed := analysed w;
     sampled := sampled w;
     optimized := fun _ _ _ _ _ _ => [7%float] |}.

(** An installation in which the second parameter table is rejected by
    [from_dict]. *)
Definition example_bad_parameter (mode : string) : World :=
  let w := example_run mode in
  {| __version__ := __version__ w;
     command_line := command_line w;
     read_error := read_error w;
     file_text := file_text w;
     toml_loads := toml_loads w;
     validation_error := validation_error w;
     cpu_count := cpu_count w;
     fails := fun c =>
       match c with
       | MarginParameterConfiguration_from_dict (VTable [("nominal", VFloat x)]) =>
           if PrimFloat.eqb x 2 then Some "bad parameter" else None
       | _ => None
       end;
     verify_configuration_of := verify_configuration_of w;
     margin_configuration_of := margin_configuration_of w;
     yield_configuration_of := yield_configuration_of w;
     optimize_configuration_of := optimize_configuration_of w;
     margin_parameter_of := margin_parameter_of w;
     optimizer_parameter_of := optimizer_parameter_of w;
     yield_parameter_of := yield_parameter_of w;
     verified := verified w;
     analysed := analysed w;
     sampled := sampled w;
     optimized := optimized w |}.

(** The example configuration without its [parameters] table. *)
Definition example_without_parameters (mode : string) : World :=
  example_world (inl example_args) (Some "mode = ...")
    (Some [("mode", VStr mode);
           ("verify", VTable [("circuit", VStr "circuit.cir")]);
           ("yield", VTable [("num_samples", VInt 10)]);
           ("optimize", VTable [("output", VStr "optimized.cir")])])
    example_validation failed_verification 8.

(** A command line on which the argument parser exits, with status 2. *)
Definition example_usage_error : World :=
  example_world (inr 2) None None example_validation failed_verification 8.

(** A verification that passes although its outcome carries a failure
    time. *)
Definition example_passing : World :=
  example_world (inl example_args) (Some "mode = ...") (Some (example_configuration "verify"))
    example_validation
    {| passed := true; failure_time := Some 1.5%float; failure_point := None |} 8.

(** An installation in which the calls selected by [failing] raise. *)
Definition with_failures (w : World) (failing : call -> option string) : World :=
  {| __version__ := __version__ w;
     command_line := command_line w;
     read_error := read_error w;
     file_text := file_text w;
     toml_loads := toml_loads w;
     validation_error := validation_error w;
     cpu_count := cpu_count w;
     fails := failing;
     verify_configuration_of := verify_configuration_of w;
     margin_configuration_of := margin_configuration_of w;
     yield_configuration_of := yield_configuration_of w;
     optimize_configuration_of := optimize_configuration_of w;
     margin_parameter_of := margin_parameter_of w;
     optimizer_parameter_of := optimizer_parameter_of w;
     yield_parameter_of := yield_parameter_of w;
     verified := verified w;
     analysed := analysed w;
     sampled := sampled w;
     optimized := optimized w |}.

(** An installation without the simulator: [Verifier.verify] raises. *)
Definition example_failing_verifier : World :=
  with_failures (example_run "verify")
    (fun c =>
       match c with
       | Verifier_verify _ => Some "simulator not found"
       | _ => None
       end).

(** An installation in which the output path of the optimization cannot
    be written: [write_file_with_updated_parameters] raises. *)
Definition example_unwritable_output : World :=
  with_failures (example_run "optimize")
    (fun c =>
       match c with
       | write_file_with_updated_parameters _ _ _ => Some "optimized.cir is not writable"
       | _ => None
       end).

(** The command line names a directory. *)
Definition example_directory : World :=
  let w := example_run "verify" in
  {| __version__ := __version__ w;
     command_line := command_line w;
     read_error := fun _ => Some IsADirectory;
     file_text := file_text w;
     toml_loads := toml_loads w;
     validation_error := validation_error w;
     cpu_count := cpu_count w;
     fails := fails w;
     verify_configuration_of := verify_configuration_of w;
     margin_configuration_of := margin_configuration_of w;
     yield_configuration_of := yield_configuration_of w;
     optimize_configuration_of := optimize_configuration_of w;
     margin_parameter_of := margin_parameter_of w;
     optimizer_parameter_of := optimizer_parameter_of w;
     yield_parameter_of := yield_parameter_of w;
     verified := verified w;
     analysed := analysed w;
     sampled := sampled w;
     optimized := optimized w |}.

(** * Properties *)

(** ** Dictionaries *)

Lemma existsb_eqb_In (ks : list string) (k : string) :
  existsb (fun k' => String.eqb k' k) ks = true <-> In k ks.
Proof.
  rewrite existsb_exists. split.
  - intros [x [Hin Heq]]. apply String.eqb_eq in Heq. now subst.
  - intros Hin. exists k. split; [assumption | apply String.eqb_refl].
Qed.

Lemma existsb_eqb_not_In (ks : list string) (k : string) :
  existsb (fun k' => String.eqb k' k) ks = false <-> ~ In k ks.
Proof.
  rewrite <- existsb_eqb_In. destruct (existsb _ ks); split; congruence.
Qed.

Lemma dict_keys_set {V : Type} (d : dict V) (k : string) (v : V) :
  dict_keys (dict_set d k v) = add_key (dict_keys d) k.
Proof.
  unfold add_key. induction d as [|[k' v'] d IH]; simpl; [reflexivity|].
  destruct (String.eqb k' k); simpl; [reflexivity|].
  rewrite IH. now destruct (existsb _ (dict_keys d)).
Qed.

Lemma dict_set_fresh {V : Type} (d : dict V) (k : string) (v : V) :
  ~ In k (dict_keys d) -> dict_set d k v = d ++ [(k, v)].
Proof.
  induction d as [|[k' v'] d IH]; simpl; intros Hk; [reflexivity|].
  destruct (String.eqb_spec k' k) as [->|_]; [tauto|].
  rewrite IH; tauto.
Qed.

Lemma add_key_fresh (ks : list string) (k : string) :
  ~ In k ks -> add_key ks k = ks ++ [k].
Proof.
  intros Hk. unfold add_key. apply existsb_eqb_not_In in Hk. now rewrite Hk.
Qed.

Lemma add_key_NoDup (ks : list string) (k : string) :
  NoDup ks -> NoDup (add_key ks k).
Proof.
  intros Hks. unfold add_key.
  destruct (existsb _ ks) eqn:Hex; [assumption|].
  apply existsb_eqb_not_In in Hex.
  apply NoDup_app; [assumption | repeat constructor; simpl; tauto |].
  intros x Hx [<-|[]]. tauto.
Qed.

Lemma fold_add_key_NoDup (ks acc : list string) :
  NoDup acc -> NoDup (fold_left add_key ks acc).
Proof.
  revert acc. induction ks as [|k ks IH]; simpl; intros acc Hacc; [assumption|].
  apply IH, add_key_NoDup, Hacc.
Qed.

Lemma fold_add_key_fresh (ks acc : list string) :
  NoDup (acc ++ ks) -> fold_left add_key ks acc = acc ++ ks.
Proof.
  revert acc. induction ks as [|k ks IH]; simpl; intros acc Hnd.
  - now rewrite app_nil_r.
  - rewrite add_key_fresh.
    + rewrite IH; rewrite <- app_assoc; simpl; [reflexivity | assumption].
    + apply NoDup_remove_2 in Hnd. intros Hin. apply Hnd, in_or_app. now left.
Qed.

Lemma key_order_NoDup (ks : list string) : NoDup (key_order ks).
Proof. apply fold_add_key_NoDup. constructor. Qed.

Lemma key_order_unique (ks : list string) : NoDup ks -> key_order ks = ks.
Proof. intros Hks. unfold key_order. now rewrite fold_add_key_fresh. Qed.

(** A loop of assignments [acc[key] = g(item)] over the items of a
    dictionary with distinct keys appends the items in order. *)
Lemma fold_dict_set_fresh {V U : Type} (g : V -> U) (d : dict V) (acc : dict U) :
  NoDup (dict_keys acc ++ dict_keys d) ->
  fold_left (fun acc '(key, item) => dict_set acc key (g item)) d acc
  = acc ++ map (fun '(key, item) => (key, g item)) d.
Proof.
  revert acc. induction d as [|[k v] d IH]; simpl; intros acc Hnd.
  - now rewrite app_nil_r.
  - assert (Hk : ~ In k (dict_keys acc)).
    { apply NoDup_remove_2 in Hnd. intros Hin. apply Hnd, in_or_app. now left. }
    rewrite (dict_set_fresh _ _ _ Hk), IH.
    + now rewrite <- app_assoc.
    + unfold dict_keys in *. rewrite map_app, <- app_assoc. exact Hnd.
Qed.

Lemma dict_keys_map {V U : Type} (g : V -> U) (d : dict V) :
  dict_keys (map (fun '(key, item) => (key, g item)) d) = dict_keys d.
Proof.
  unfold dict_keys. rewrite map_map. apply map_ext. now intros [k v].
Qed.

Lemma margin_nominals_unique (d : dict MarginParameterConfiguration.t) :
  NoDup (dict_keys d) ->
  margin_nominals d
  = map (fun '(key, item) => (key, MarginParameterConfiguration.nominal item)) d.
Proof.
  intros Hd. unfold margin_nominals.
  now rewrite (fold_dict_set_fresh MarginParameterConfiguration.nominal).
Qed.

Lemma optimizer_nominals_unique (d : dict OptimizerParameterConfiguration.t) :
  NoDup (dict_keys d) ->
  optimizer_nominals d
  = map (fun '(key, item) => (key, OptimizerParameterConfiguration.nominal item)) d.
Proof.
  intros Hd. unfold optimizer_nominals.
  now rewrite (fold_dict_set_fresh OptimizerParameterConfiguration.nominal).
Qed.

Lemma len_dict_keys {V : Type} (d : dict V) : len (dict_keys d) = len d.
Proof. unfold len, dict_keys. now rewrite length_map. Qed.

(** ** The monad *)

Lemma bind_Ok {A B : Type} (m : M A) (f : A -> M B) (t : list event) (a : A) :
  m = (t, Ok a) -> bind m f = (t ++ trace (f a), outcome (f a)).
Proof. intros ->. unfold bind, trace, outcome. now destruct (f a). Qed.

Lemma bind_Raise {A B : Type} (m : M A) (f : A -> M B) (t : list event) (e : exn) :
  m = (t, Raise e) -> bind m f = (t, Raise e).
Proof. now intros ->. Qed.

Lemma bind_ret {A B : Type} (a : A) (f : A -> M B) : bind (ret a) f = f a.
Proof. unfold bind, ret. now destruct (f a). Qed.

Lemma bind_emit {B : Type} (ev : event) (f : unit -> M B) :
  bind (emit ev) f = (ev :: trace (f tt), outcome (f tt)).
Proof. unfold bind, emit, trace, outcome. now destruct (f tt). Qed.

Lemma surjective_run {A : Type} (m : M A) : m = (trace m, outcome m).
Proof. now destruct m. Qed.

Lemma trace_bind {A B : Type} (m : M A) (f : A -> M B) :
  trace (bind m f)
  = trace m ++ match outcome m with Ok a => trace (f a) | Raise _ => [] end.
Proof.
  destruct m as [t [a|e]]; unfold bind, trace, outcome; simpl.
  - now destruct (f a).
  - now rewrite app_nil_r.
Qed.

Lemma outcome_bind {A B : Type} (m : M A) (f : A -> M B) :
  outcome (bind m f)
  = match outcome m with Ok a => outcome (f a) | Raise e => Raise e end.
Proof.
  destruct m as [t [a|e]]; unfold bind, outcome; simpl; [|reflexivity].
  now destruct (f a).
Qed.

(** ** Rules of the program logic *)

Section Rules.

Variable P : event -> Prop.
Variable E : exn -> Prop.

Lemma triple_ret {A : Type} (a : A) (Q : A -> Prop) : Q a -> triple P E (ret a) Q.
Proof. intros HQ. split; [constructor | exact HQ]. Qed.

Lemma triple_raise {A : Type} (e : exn) (Q : A -> Prop) : E e -> triple P E (raise e) Q.
Proof. intros HE. split; [constructor | exact HE]. Qed.

Lemma triple_emit (ev : event) (Q : unit -> Prop) :
  P ev -> Q tt -> triple P E (emit ev) Q.
Proof. intros HP HQ. split; [repeat constructor; exact HP | exact HQ]. Qed.

Lemma triple_bind {A B : Type} (m : M A) (f : A -> M B) (R : A -> Prop) (Q : B -> Prop) :
  triple P E m R -> (forall a, R a -> triple P E (f a) Q) -> triple P E (bind m f) Q.
Proof.
  intros [Ht Ho] Hf. unfold triple. rewrite trace_bind, outcome_bind.
  destruct (outcome m) as [a|e].
  - destruct (Hf a Ho) as [Ht' Ho']. split; [apply Forall_app; now split | exact Ho'].
  - split; [now rewrite app_nil_r | exact Ho].
Qed.

Lemma triple_weaken {A : Type} (m : M A) (R Q : A -> Prop) :
  triple P E m R -> (forall a, R a -> Q a) -> triple P E m Q.
Proof.
  intros [Ht Ho] HRQ. split; [exact Ht|].
  destruct (outcome m); [now apply HRQ | exact Ho].
Qed.

Lemma triple_lift {A : Type} (r : result A) (Q : A -> Prop) :
  match r with Ok a => Q a | Raise e => E e end -> triple P E (lift r) Q.
Proof. intros Hr. split; [constructor | exact Hr]. Qed.

Lemma triple_getitem {V : Type} (d : dict V) (k : string) (Q : V -> Prop) :
  E (KeyError k) -> (forall v, dict_get d k = Some v -> Q v) ->
  triple P E (getitem d k) Q.
Proof.
  intros HE HQ. unfold getitem. destruct (dict_get d k) as [v|].
  - apply triple_ret. now apply HQ.
  - apply triple_raise, HE.
Qed.

Lemma triple_items (v : value) (Q : dict value -> Prop) :
  E (AttributeError "items") -> (forall t, v = VTable t -> Q t) ->
  triple P E (items v) Q.
Proof.
  intros HE HQ.
  destruct v; try (apply triple_raise, HE). apply triple_ret. now apply HQ.
Qed.

Lemma triple_print (template : string) (args : list value) (Q : unit -> Prop) :
  P (PrintLine template args) -> Q tt -> triple P E (print template args) Q.
Proof. apply triple_emit. Qed.

Lemma triple_invoke {A : Type} (w : World) (c : call) (r : A) (Q : A -> Prop) :
  P (Call c) -> (forall msg, E (ComponentError msg)) -> Q r ->
  triple P E (invoke w c r) Q.
Proof.
  intros HP HE HQ. unfold invoke.
  apply triple_bind with (R := fun _ => True).
  - now apply triple_emit.
  - intros _ _. destruct (fails w c); [apply triple_raise, HE | now apply triple_ret].
Qed.

(** The loop invariant rule: the invariant may mention the items still to
    be processed. *)
Lemma triple_for_each {A S : Type} (body : A -> S -> M S) (I : list A -> S -> Prop)
  (l : list A) (s : S) :
  I l s ->
  (forall a l' s', I (a :: l') s' -> triple P E (body a s') (I l')) ->
  triple P E (for_each l body s) (I []).
Proof.
  revert s. induction l as [|a l IH]; simpl; intros s HI Hbody.
  - now apply triple_ret.
  - apply triple_bind with (R := I l); [now apply Hbody|].
    intros s' HI'. now apply IH.
Qed.

End Rules.

(** ** Specifications of the pieces of the driver *)

(** The percentage is always defined: the division is guarded. *)
Lemma percentage_total (r : YieldResult) :
  exists p, YieldAnalysis_percentage r = Ok p.
Proof.
  unfold YieldAnalysis_percentage, int_truediv.
  destruct (num_total r =? 0); eexists; reflexivity.
Qed.

Lemma bind_lift_Ok {A B : Type} (a : A) (f : A -> M B) : bind (lift (Ok a)) f = f a.
Proof. apply bind_ret. Qed.

Section Pieces.

Variable P : event -> Prop.
Variable E : exn -> Prop.
Variable w : World.

Lemma triple_invoke_eq {A : Type} (c : call) (r : A) :
  P (Call c) -> (forall msg, E (ComponentError msg)) ->
  triple P E (invoke w c r) (fun a => a = r).
Proof. intros. now apply triple_invoke. Qed.

Lemma triple_getitem_eq {V : Type} (d : dict V) (k : string) :
  E (KeyError k) -> triple P E (getitem d k) (fun v => dict_get d k = Some v).
Proof. intros. now apply triple_getitem. Qed.

Lemma triple_items_eq (v : value) :
  E (AttributeError "items") -> triple P E (items v) (fun t => v = VTable t).
Proof. intros. now apply triple_items. Qed.

Lemma triple_parse_args :
  P ParseArgs -> (forall code, E (SystemExit code)) ->
  triple P E (parse_args w) (fun args => command_line w = inl args).
Proof.
  intros HP HE. unfold parse_args.
  apply triple_bind with (R := fun _ => True); [now apply triple_emit|].
  intros _ _. destruct (command_line w) as [args|code].
  - now apply triple_ret.
  - apply triple_raise, HE.
Qed.

Lemma triple_toml_load (path : string) :
  P (TomlLoad path) -> E (load_error w path) ->
  triple P E (toml_load w path)
    (fun cfg =>
       read_error w path = None /\
       exists text, file_text w path = Some text /\ toml_loads w text = Some cfg).
Proof.
  intros HP HE. unfold toml_load, load_error in *.
  apply triple_bind with (R := fun _ => True); [now apply triple_emit|].
  intros _ _. destruct (read_error w path) as [f|]; [now apply triple_raise|].
  destruct (file_text w path) as [text|]; [|now apply triple_raise].
  destruct (toml_loads w text) as [cfg|] eqn:Hcfg; [|now apply triple_raise].
  apply triple_ret. split; [reflexivity | now exists text].
Qed.

Lemma validate_valid (cfg : dict value) :
  validation_error w cfg = None -> validate w cfg = ([SchemaValidate cfg], Ok tt).
Proof. intros H. unfold validate, schema_validate. rewrite bind_emit, H. reflexivity. Qed.

Lemma validate_invalid (cfg : dict value) (message : string) :
  validation_error w cfg = Some message ->
  validate w cfg
  = ([SchemaValidate cfg;
      PrintLine "ERROR: configuration file validation failed" [];
      PrintLine "       reason: {}" [VStr message]],
     Raise (SystemExit (-1))).
Proof. intros H. unfold validate, schema_validate. rewrite bind_emit, H. reflexivity. Qed.

Lemma triple_validate (cfg : dict value) :
  P (SchemaValidate cfg) ->
  P (PrintLine "ERROR: configuration file validation failed" []) ->
  (forall message, P (PrintLine "       reason: {}" [VStr message])) ->
  E (SystemExit (-1)) ->
  triple P E (validate w cfg) (fun _ => validation_error w cfg = None).
Proof.
  intros HP1 HP2 HP3 HE.
  destruct (validation_error w cfg) as [message|] eqn:Hv.
  - rewrite (validate_invalid _ _ Hv). split; [|exact HE].
    repeat constructor; auto.
  - rewrite (validate_valid _ Hv). split; [|reflexivity].
    repeat constructor; auto.
Qed.

(** The keys of the dictionary filled by the loop over the items. *)
Lemma triple_parameters_from_dict {C : Type} (from_dict : value -> M C) (its : dict value) :
  (forall item, triple P E (from_dict item) (fun _ => True)) ->
  triple P E (parameters_from_dict from_dict its)
    (fun d => dict_keys d = key_order (dict_keys its)).
Proof.
  intros Hfd. unfold parameters_from_dict.
  pose (I := fun (l : dict value) (acc : dict C) =>
               fold_left add_key (dict_keys l) (dict_keys acc) = key_order (dict_keys its)).
  apply triple_weaken with (R := I []).
  - apply (triple_for_each P E _ I); [reflexivity|].
    intros [key item] l' acc HI. unfold I in *.
    apply triple_bind with (R := fun _ => True); [apply Hfd|].
    intros c _. apply triple_ret. now rewrite dict_keys_set.
  - intros d Hd. exact Hd.
Qed.

Lemma map_snd_enumerate_from {A : Type} (l : list A) (i : nat) :
  map snd (enumerate_from i l) = l.
Proof. revert i. induction l as [|a l IH]; simpl; intros i; [|rewrite IH]; reflexivity. Qed.

(** The keys of the re-associated point, whatever the point is. *)
Lemma triple_reassociate (keys_ : list string) (optimized_point : list float) :
  E IndexError -> E ValueError ->
  triple P E (reassociate keys_ optimized_point)
    (fun named => dict_keys named = key_order keys_).
Proof.
  intros HE1 HE2. unfold reassociate.
  pose (I := fun (l : list (nat * string)) (acc : dict float) =>
               fold_left add_key (map snd l) (dict_keys acc) = key_order keys_).
  apply triple_weaken with (R := I []).
  - apply (triple_for_each P E _ I).
    + unfold I, enumerate. now rewrite map_snd_enumerate_from.
    + intros [i key] l' acc HI. unfold I in *.
      apply triple_bind with (R := fun _ => True).
      { unfold index_of. destruct (list_index keys_ key);
          [now apply triple_ret | now apply triple_raise]. }
      intros j _. apply triple_bind with (R := fun _ => True).
      { unfold list_getitem. destruct (nth_error optimized_point j);
          [now apply triple_ret | now apply triple_raise]. }
      intros x _. apply triple_ret. now rewrite dict_keys_set.
  - intros d Hd. exact Hd.
Qed.

End Pieces.

(** ** The worker count policy *)

(** One step of a proof in the program logic: the first action of the
    program is handled by its rule, with the strongest postcondition. *)
Ltac step :=
  lazymatch goal with
  | |- triple _ _ (bind (print _ _) _) _ =>
      eapply triple_bind;
      [apply triple_print with (Q := fun _ => True) | intros _ _]
  | |- triple _ _ (bind (emit _) _) _ =>
      eapply triple_bind;
      [apply triple_emit with (Q := fun _ => True) | intros _ _]
  | |- triple _ _ (bind (getitem _ _) _) _ =>
      eapply triple_bind; [apply triple_getitem_eq | intros ? ?]
  | |- triple _ _ (bind (items _) _) _ =>
      eapply triple_bind; [apply triple_items_eq | intros ? ?]
  | |- triple _ _ (bind (invoke _ _ _) _) _ =>
      eapply triple_bind; [apply triple_invoke_eq | intros ? ->]
  | |- triple _ _ (bind (parameters_from_dict _ _) _) _ =>
      eapply triple_bind; [apply triple_parameters_from_dict; intros ? | intros ? ?]
  | |- triple _ _ (bind (reassociate _ _) _) _ =>
      eapply triple_bind; [apply triple_reassociate | intros ? ?]
  | |- triple _ _ (bind (parse_args _) _) _ =>
      eapply triple_bind; [apply triple_parse_args | intros ? ?]
  | |- triple _ _ (bind (toml_load _ _) _) _ =>
      eapply triple_bind; [apply triple_toml_load | intros ? [? [? [? ?]]]]
  | |- triple _ _ (bind (validate _ _) _) _ =>
      eapply triple_bind; [apply triple_validate | intros ? ?]
  | |- triple _ _ (bind (ret _) _) _ => rewrite bind_ret
  | |- triple _ _ (bind (lift (YieldAnalysis_percentage ?r)) _) _ =>
      let p := fresh "percentage" in
      destruct (percentage_total r) as [p ->]; rewrite bind_lift_Ok
  | |- triple _ _ (print _ _) _ => apply triple_print
  | |- triple _ _ (invoke _ _ _) _ => apply triple_invoke
  | |- triple _ _ (ret _) _ => apply triple_ret
  | |- triple _ _ (raise _) _ => apply triple_raise
  end.

(** Side conditions that hold by definition. *)
Ltac side := solve [exact I | intros; exact I].

Section WorkerPolicy.

Variable w : World.
Hypothesis cpu_count_positive : 1 <= cpu_count w.


Lemma policy_verify (cfg : dict value) :
  triple (worker_policy w) any_exception (run_verify w cfg) (fun _ => True).
Proof.
  unfold run_verify. repeat (step; try side).
  match goal with |- context [passed ?o] => destruct (passed o) end;
    repeat (step; try side).
  match goal with |- context [failure_time ?o] => destruct (failure_time o) end;
    repeat (step; try side);
    match goal with |- context [failure_point ?o] => destruct (failure_point o) end;
    repeat (step; try side).
Qed.

Lemma number_of_parameters_loaded (cfg its : dict value) :
  loaded_configuration w = Some cfg ->
  dict_get cfg "parameters" = Some (VTable its) ->
  number_of_parameters w = len (key_order (dict_keys its)).
Proof. intros Hcfg Hps. unfold number_of_parameters. now rewrite Hcfg, Hps. Qed.

Lemma len_nonneg {A : Type} (l : list A) : 0 <= len l.
Proof. unfold len. lia. Qed.

Lemma analyse_policy (cfg its : dict value) (vc : VerifyConfiguration.t)
  (mc : MarginAnalysisConfiguration.t) (parameters : dict float) (n : Z) :
  loaded_configuration w = Some cfg ->
  dict_get cfg "parameters" = Some (VTable its) ->
  dict_keys parameters = key_order (dict_keys its) ->
  n = len (key_order (dict_keys its)) ->
  worker_policy w (Call (MarginAnalysis_analyse vc mc parameters (Z.min (2 * n) (cpu_count w)))).
Proof.
  intros Hcfg Hps Hkeys ->. cbn [worker_policy].
  rewrite (number_of_parameters_loaded _ _ Hcfg Hps), <- Hkeys, len_dict_keys.
  pose proof (len_nonneg parameters). repeat split. lia.
Qed.

Lemma keys_margin_nominals (d : dict MarginParameterConfiguration.t) (ks : list string) :
  dict_keys d = key_order ks -> dict_keys (margin_nominals d) = key_order ks.
Proof.
  intros Hd. rewrite margin_nominals_unique, dict_keys_map; [exact Hd|].
  rewrite Hd. apply key_order_NoDup.
Qed.

Lemma policy_margin (cfg : dict value) :
  loaded_configuration w = Some cfg ->
  triple (worker_policy w) any_exception (run_margin w cfg) (fun _ => True).
Proof.
  intros Hcfg. unfold run_margin, margin_parameters_of.
  repeat (step; try side); cbv beta in *; subst.
  match goal with
  | Hps : dict_get cfg "parameters" = Some _, Hk : dict_keys ?d = key_order _ |- _ =>
      apply (analyse_policy _ _ _ _ _ _ Hcfg Hps);
      [now apply keys_margin_nominals | now rewrite <- len_dict_keys, Hk]
  end.
Qed.

Lemma sample_policy (cfg : dict value) (y : value) (vc : VerifyConfiguration.t)
  (yps : dict YieldParameterConfiguration.t) :
  loaded_configuration w = Some cfg ->
  dict_get cfg "yield" = Some y ->
  let num_samples := YieldAnalysisConfiguration.num_samples (yield_configuration_of w y) in
  worker_policy w (Call (YieldAnalysis_sample vc yps num_samples (Z.min num_samples (cpu_count w)))).
Proof.
  intros Hcfg Hy. cbn [worker_policy].
  unfold configured_num_samples. rewrite Hcfg, Hy. repeat split. lia.
Qed.

Lemma policy_yield (cfg : dict value) :
  loaded_configuration w = Some cfg ->
  triple (worker_policy w) any_exception (run_yield w cfg) (fun _ => True).
Proof.
  intros Hcfg. unfold run_yield, yield_parameters_of.
  repeat (step; try side); cbv beta in *; subst.
  now apply (sample_policy cfg).
Qed.

Lemma policy_optimize (args : Args) (cfg : dict value) :
  loaded_configuration w = Some cfg ->
  triple (worker_policy w) any_exception (run_optimize w args cfg) (fun _ => True).
Proof.
  intros Hcfg. unfold run_optimize, optimize_parameters_of, margin_parameters_of.
  repeat (step; try side); cbv beta in *; subst.
  match goal with
  | |- context [OptimizeConfiguration.output ?oc] =>
      destruct (OptimizeConfiguration.output oc)
  end;
    repeat (step; try side); cbv beta in *; subst.
  all: match goal with
       | Hps : dict_get _ "parameters" = Some (VTable ?its),
         Hps' : dict_get _ "parameters" = Some (VTable ?its'),
         Hops : dict_keys ?ops = key_order (dict_keys ?its),
         Hmps : dict_keys ?mps = key_order (dict_keys ?its'),
         Hnamed : dict_keys ?named = key_order (dict_keys ?ops)
         |- worker_policy w (Call (MarginAnalysis_analyse _ _ ?named _)) =>
           assert (its' = its) by congruence; subst its';
           apply (analyse_policy _ _ _ _ _ _ Hcfg Hps);
           [ rewrite Hnamed, Hops; apply key_order_unique, key_order_NoDup
           | now rewrite <- len_dict_keys, Hmps ]
       end.
Qed.

(** Every event of a run satisfies the policy. *)
Lemma policy_run : triple (worker_policy w) any_exception (tools_module w) (fun _ => True).
Proof.
  unfold tools_module, run. step; [side ..|].
  eapply triple_bind; [apply triple_parse_args; side|]. intros args Hargs.
  step; [side ..|].
  apply triple_bind with (R := fun _ => True);
    [destruct (verbose args); [apply triple_print | apply triple_ret]; side|].
  intros _ _.
  eapply triple_bind; [apply triple_toml_load; side|].
  intros cfg [Hread [text [Htext Hloads]]].
  assert (Hcfg : loaded_configuration w = Some cfg).
  { unfold loaded_configuration. now rewrite Hargs, Hread, Htext. }
  step; [side ..|].
  unfold dispatch. step; [side ..|].
  repeat match goal with
         | |- context [if ?b then _ else _] => destruct b
         end.
  - apply policy_verify.
  - now apply policy_margin.
  - now apply policy_yield.
  - now apply policy_optimize.
  - now apply triple_raise.
Qed.

End WorkerPolicy.

(** ** Runs in a reliable world *)

Lemma bind_emit_eq {B : Type} (ev : event) (f : unit -> M B) t r :
  f tt = (t, r) -> bind (emit ev) f = (ev :: t, r).
Proof. intros H. now rewrite bind_emit, H. Qed.

Lemma bind_print_eq {B : Type} template args (f : unit -> M B) t r :
  f tt = (t, r) -> bind (print template args) f = (PrintLine template args :: t, r).
Proof. apply bind_emit_eq. Qed.

Lemma bind_ret_eq {A B : Type} (a : A) (f : A -> M B) t r :
  f a = (t, r) -> bind (ret a) f = (t, r).
Proof. intros H. now rewrite bind_ret. Qed.

Lemma bind_app_eq {A B : Type} (m : M A) (f : A -> M B) t1 a t2 r :
  m = (t1, Ok a) -> f a = (t2, r) -> bind m f = (t1 ++ t2, r).
Proof. intros -> H. unfold bind. now rewrite H. Qed.

Lemma bind_getitem_eq {V B : Type} (d : dict V) (k : string) (v : V) (f : V -> M B) t r :
  dict_get d k = Some v -> f v = (t, r) -> bind (getitem d k) f = (t, r).
Proof. intros Hk H. unfold getitem. now rewrite Hk, bind_ret. Qed.

Lemma bind_getitem_missing {V B : Type} (d : dict V) (k : string) (f : V -> M B) :
  dict_get d k = None -> bind (getitem d k) f = ([], Raise (KeyError k)).
Proof. intros Hk. unfold getitem. now rewrite Hk. Qed.

Lemma dict_keys_dict_of_items_acc {C : Type} (from_dict : value -> C)
  (its : dict value) (acc : dict C) :
  dict_keys (fold_left (fun acc '(key, item) => dict_set acc key (from_dict item)) its acc)
  = fold_left add_key (dict_keys its) (dict_keys acc).
Proof.
  revert acc. induction its as [|[k item] its IH]; simpl; intros acc; [reflexivity|].
  now rewrite IH, dict_keys_set.
Qed.

Lemma dict_keys_dict_of_items {C : Type} (from_dict : value -> C) (its : dict value) :
  dict_keys (dict_of_items from_dict its) = key_order (dict_keys its).
Proof. apply dict_keys_dict_of_items_acc. Qed.

Section ReliableWorld.

Variable w : World.
Hypothesis reliable : Reliable w.

Lemma invoke_reliable {A : Type} (c : call) (r : A) : invoke w c r = ([Call c], Ok r).
Proof. unfold invoke. now rewrite bind_emit, (no_failure w reliable). Qed.

Lemma bind_invoke_eq {A B : Type} (c : call) (a : A) (f : A -> M B) t r :
  f a = (t, r) -> bind (invoke w c a) f = (Call c :: t, r).
Proof. intros H. rewrite invoke_reliable. unfold bind. now rewrite H. Qed.

Lemma parameters_loop_reliable {C : Type} (mk : value -> call) (from_dict : value -> C)
  (its : dict value) (acc : dict C) :
  for_each its
    (fun '(key, item) acc => c <- invoke w (mk item) (from_dict item) ;; ret (dict_set acc key c))
    acc
  = (from_dict_events mk its,
     Ok (fold_left (fun acc '(key, item) => dict_set acc key (from_dict item)) its acc)).
Proof.
  revert acc. induction its as [|[k item] its IH]; simpl; intros acc; [reflexivity|].
  apply (bind_app_eq _ _ [Call (mk item)] (dict_set acc k (from_dict item))).
  - apply bind_invoke_eq. reflexivity.
  - apply IH.
Qed.

Lemma parameters_from_dict_reliable {C : Type} (mk : value -> call) (from_dict : value -> C)
  (its : dict value) :
  parameters_from_dict (fun item => invoke w (mk item) (from_dict item)) its
  = (from_dict_events mk its, Ok (dict_of_items from_dict its)).
Proof. apply parameters_loop_reliable. Qed.

End ReliableWorld.

(** ** Re-association of the optimized point *)

Lemma list_index_fresh_app (l1 l2 : list string) (x : string) :
  ~ In x l1 -> list_index (l1 ++ x :: l2) x = Some (List.length l1).
Proof.
  induction l1 as [|y l1 IH]; simpl; intros Hx.
  - now rewrite String.eqb_refl.
  - destruct (String.eqb_spec y x) as [->|_]; [tauto|].
    rewrite IH; tauto.
Qed.

Lemma combine_snoc {A : Type} (pre : list string) (point : list A) (k : string) (x : A) :
  nth_error point (List.length pre) = Some x ->
  combine (pre ++ [k]) point = combine pre point ++ [(k, x)].
Proof.
  revert point. induction pre as [|k' pre IH]; intros [|y point]; simpl; try discriminate.
  - now intros [= ->].
  - intros H. now rewrite IH.
Qed.

Lemma dict_keys_combine {A : Type} (ks : list string) (vs : list A) :
  (List.length ks <= List.length vs)%nat -> dict_keys (combine ks vs) = ks.
Proof.
  revert vs. induction ks as [|k ks IH]; intros [|v vs]; simpl; intros Hlen;
    try reflexivity; try lia.
  f_equal. apply IH. lia.
Qed.


Lemma reassociate_loop (keys_ pre suf : list string) (optimized_point : list float) :
  keys_ = pre ++ suf -> NoDup keys_ ->
  (List.length keys_ <= List.length optimized_point)%nat ->
  for_each (enumerate_from (List.length pre) suf)
    (fun '(_, key) acc =>
       index <- index_of keys_ key ;;
       x <- list_getitem optimized_point index ;;
       ret (dict_set acc key x))
    (combine pre optimized_point)
  = ([], Ok (combine keys_ optimized_point)).
Proof.
  revert pre. induction suf as [|k suf IH]; intros pre Hkeys Hnd Hlen.
  - rewrite app_nil_r in Hkeys. now subst.
  - assert (Hfresh : ~ In k pre).
    { subst keys_. apply NoDup_remove_2 in Hnd. intros Hin. apply Hnd, in_or_app. now left. }
    assert (Hlt : (List.length pre < List.length optimized_point)%nat).
    { subst keys_. rewrite length_app in Hlen. simpl in Hlen. lia. }
    destruct (nth_error optimized_point (List.length pre)) as [x|] eqn:Hx;
      [|apply nth_error_None in Hx; lia].
    simpl. unfold index_of. rewrite Hkeys at 1.
    rewrite (list_index_fresh_app _ _ _ Hfresh), bind_ret.
    unfold list_getitem. rewrite Hx, !bind_ret.
    rewrite dict_set_fresh by (rewrite dict_keys_combine; [exact Hfresh | lia]).
    rewrite <- (combine_snoc _ _ _ _ Hx).
    replace (S (List.length pre)) with (List.length (pre ++ [k]))
      by (rewrite length_app; simpl; lia).
    apply IH; [now rewrite <- app_assoc | assumption..].
Qed.

(** With distinct keys and a point that is long enough, re-association
    zips the keys with the point. *)
Lemma reassociate_aligned (keys_ : list string) (optimized_point : list float) :
  NoDup keys_ -> (List.length keys_ <= List.length optimized_point)%nat ->
  reassociate keys_ optimized_point = ([], Ok (combine keys_ optimized_point)).
Proof. intros Hnd Hlen. now apply (reassociate_loop keys_ [] keys_). Qed.

(** ** The four modes in a reliable world *)

(** One step of the symbolic execution of a run whose trace is known. *)
Ltac exec :=
  lazymatch goal with
  | |- bind (print _ _) _ = _ => apply bind_print_eq
  | |- bind (emit _) _ = _ => apply bind_emit_eq
  | |- bind (ret _) _ = _ => apply bind_ret_eq
  | |- bind (invoke _ _ _) _ = _ =>
      lazymatch goal with
      | H : Reliable _ |- _ => apply (bind_invoke_eq _ H)
      end
  | |- bind (getitem _ _) _ = _ => eapply bind_getitem_eq; [eassumption|]
  | |- bind (items (VTable _)) _ = _ => apply bind_ret_eq
  | |- bind (parameters_from_dict _ _) _ = _ =>
      lazymatch goal with
      | H : Reliable _ |- _ =>
          eapply bind_app_eq; [apply (parameters_from_dict_reliable _ H)|]
      end
  | |- invoke _ _ _ = _ =>
      lazymatch goal with
      | H : Reliable _ |- _ => apply (invoke_reliable _ H)
      end
  end.

Section Modes.

Variable w : World.
Hypothesis reliable : Reliable w.

Variable cfg : dict value.

Lemma verify_report_run (output : VerificationOutcome) :
  (if passed output then print "SUCCESS" []
   else
     print "FAILURE" [] ;;
     match failure_time output with
     | Some t => print "  TIME  : {}" [VFloat t]
     | None => ret tt
     end ;;
     match failure_point output with
     | Some p => print "  optimized_point : {}" [p]
     | None => ret tt
     end)
  = (verify_report output, Ok tt).
Proof.
  unfold verify_report, failure_metadata.
  destruct (passed output), (failure_time output), (failure_point output); reflexivity.
Qed.

Lemma run_verify_reliable (d : value) :
  dict_get cfg "verify" = Some d ->
  let vc := verify_configuration_of w d in
  run_verify w cfg
  = (PrintLine "=== Verify circuit operation ===" []
     :: Call (VerifyConfiguration_from_dict d)
     :: Call (Verifier_init vc)
     :: Call (Verifier_verify vc)
     :: verify_report (verified w vc),
     Ok tt).
Proof.
  intros Hd vc. unfold run_verify. repeat exec. apply verify_report_run.
Qed.

Lemma run_margin_reliable (d : value) (its : dict value) :
  dict_get cfg "verify" = Some d ->
  dict_get cfg "parameters" = Some (VTable its) ->
  run_margin w cfg
  = (PrintLine "=== Margin analysis ===" []
     :: margin_analysis_trace w d (dict_get_default cfg "margin" (VTable [])) its
          (margin_nominals (dict_of_items (margin_parameter_of w) its)),
     Ok tt).
Proof.
  intros Hd Hps. unfold run_margin, margin_parameters_of, margin_analysis_trace.
  cbv zeta. repeat exec.
Qed.

Lemma run_yield_reliable (d y : value) (its : dict value) :
  dict_get cfg "verify" = Some d ->
  dict_get cfg "yield" = Some y ->
  dict_get cfg "parameters" = Some (VTable its) ->
  let vc := verify_configuration_of w d in
  let yps := dict_of_items (yield_parameter_of w) its in
  let num_samples := YieldAnalysisConfiguration.num_samples (yield_configuration_of w y) in
  let num_threads := Z.min num_samples (cpu_count w) in
  let r := sampled w vc yps num_samples num_threads in
  forall percentage, YieldAnalysis_percentage r = Ok percentage ->
  run_yield w cfg
  = (PrintLine "=== Yield analysis ===" []
     :: Call (VerifyConfiguration_from_dict d)
     :: Call (YieldAnalysisConfiguration_from_dict y)
     :: from_dict_events YieldParameterConfiguration_from_dict its
     ++ [Call (YieldAnalysis_init vc yps);
         Call (YieldAnalysis_sample vc yps num_samples num_threads);
         PrintLine "Yield: {} / {} = {:.1f} %"
           [VInt (num_success r); VInt (num_total r);
            VFloat (PrimFloat.mul percentage 100)]],
     Ok tt).
Proof.
  intros Hd Hy Hps vc yps num_samples num_threads r percentage Hp.
  unfold run_yield, yield_parameters_of. cbv zeta. repeat exec.
  fold vc yps num_samples num_threads r. rewrite Hp. reflexivity.
Qed.

Lemma optimizer_nominals_length (ops : dict OptimizerParameterConfiguration.t) :
  NoDup (dict_keys ops) -> List.length (optimizer_nominals ops) = List.length ops.
Proof. intros Hnd. rewrite optimizer_nominals_unique by assumption. apply length_map. Qed.

Lemma run_optimize_reliable (args : Args) (d o : value) (its : dict value) :
  dict_get cfg "verify" = Some d ->
  dict_get cfg "optimize" = Some o ->
  dict_get cfg "parameters" = Some (VTable its) ->
  run_optimize w args cfg
  = (optimize_trace w args d (dict_get_default cfg "margin" (VTable [])) o its, Ok tt).
Proof.
  intros Hd Ho Hps.
  unfold optimize_trace, write_events, named_point, optimized_point_of.
  set (m := dict_get_default cfg "margin" (VTable [])).
  set (vc := verify_configuration_of w d).
  set (mc := margin_configuration_of w m).
  set (oc := optimize_configuration_of w o).
  set (ops := dict_of_items (optimizer_parameter_of w) its).
  set (initial := optimizer_nominals ops).
  set (optimized_point := optimized w vc mc oc ops (verbose args) initial).
  assert (Hnd : NoDup (dict_keys ops)).
  { unfold ops. rewrite dict_keys_dict_of_items. apply key_order_NoDup. }
  assert (Hlen : (List.length (dict_keys ops) <= List.length optimized_point)%nat).
  { unfold optimized_point. rewrite (aligned w reliable). unfold initial.
    rewrite optimizer_nominals_length by assumption.
    unfold dict_keys. now rewrite length_map. }
  unfold run_optimize, optimize_parameters_of, margin_parameters_of, margin_analysis_trace.
  cbv zeta. repeat exec.
  fold m vc mc oc ops initial optimized_point.
  eapply bind_app_eq.
  { destruct (OptimizeConfiguration.output oc); [exec | reflexivity]. }
  repeat exec.
  eapply (bind_app_eq _ _ []); [now apply reassociate_aligned|].
  repeat exec.
Qed.

End Modes.

(** ** The whole run *)

Section WholeRun.

Variable w : World.
Variable args : Args.
Hypothesis Hargs : command_line w = inl args.

Lemma parse_args_parsed : parse_args w = ([ParseArgs], Ok args).
Proof. unfold parse_args. now rewrite bind_emit, Hargs. Qed.

Lemma bind_parse_args_eq {B : Type} (f : Args -> M B) t r :
  f args = (t, r) -> bind (parse_args w) f = (ParseArgs :: t, r).
Proof. intros H. rewrite (bind_Ok _ _ _ _ parse_args_parsed), H. reflexivity. Qed.

Lemma bind_toml_load_eq {B : Type} (f : dict value -> M B) cfg t r :
  loaded_configuration w = Some cfg ->
  f cfg = (t, r) ->
  bind (toml_load w (configuration args)) f = (TomlLoad (configuration args) :: t, r).
Proof.
  unfold loaded_configuration, toml_load. rewrite Hargs. intros Hcfg H.
  apply bind_app_eq with (t1 := [TomlLoad (configuration args)]) (a := cfg); [|exact H].
  apply bind_emit_eq.
  destruct (read_error w (configuration args)); [discriminate|].
  destruct (file_text w (configuration args)); [|discriminate]. now rewrite Hcfg.
Qed.

Lemma bind_toml_load_fails {B : Type} (f : dict value -> M B) :
  loaded_configuration w = None ->
  bind (toml_load w (configuration args)) f
  = ([TomlLoad (configuration args)], Raise (load_error w (configuration args))).
Proof.
  unfold loaded_configuration, toml_load, load_error. rewrite Hargs. intros Hcfg.
  apply bind_Raise. apply bind_emit_eq.
  destruct (read_error w (configuration args)); [reflexivity|].
  destruct (file_text w (configuration args)); [now rewrite Hcfg | reflexivity].
Qed.

(** A run whose configuration file loads. *)
Lemma tools_module_loaded (cfg : dict value) t r :
  loaded_configuration w = Some cfg ->
  (validate w cfg ;; dispatch w args cfg) = (t, r) ->
  tools_module w = (preamble w args ++ t, r).
Proof.
  intros Hcfg Hk. unfold tools_module, run, preamble.
  apply bind_emit_eq, bind_parse_args_eq, bind_print_eq.
  destruct (verbose args); cbn [app].
  - apply bind_print_eq. now apply (bind_toml_load_eq _ cfg).
  - apply bind_ret_eq. now apply (bind_toml_load_eq _ cfg).
Qed.

(** A run whose configuration file does not load. *)
Lemma tools_module_not_loaded :
  loaded_configuration w = None ->
  tools_module w
  = (preamble w args, Raise (load_error w (configuration args))).
Proof.
  intros Hcfg. unfold tools_module, run, preamble.
  apply bind_emit_eq, bind_parse_args_eq, bind_print_eq.
  destruct (verbose args); cbn [app].
  - apply bind_print_eq. now apply bind_toml_load_fails.
  - apply bind_ret_eq. now apply bind_toml_load_fails.
Qed.

Variable cfg : dict value.
Hypothesis Hcfg : loaded_configuration w = Some cfg.

(** A valid configuration reaches the dispatch. *)
Lemma tools_module_valid (t : list event) (r : result unit) :
  validation_error w cfg = None ->
  dispatch w args cfg = (t, r) ->
  tools_module w = (preamble w args ++ SchemaValidate cfg :: t, r).
Proof.
  intros Hvalid Hdispatch.
  replace (preamble w args ++ SchemaValidate cfg :: t)
    with (preamble w args ++ [SchemaValidate cfg] ++ t) by reflexivity.
  apply (tools_module_loaded cfg); [assumption|].
  now apply bind_app_eq with (a := tt); [apply validate_valid|].
Qed.

(** An invalid configuration does not. *)
Lemma tools_module_invalid (message : string) :
  validation_error w cfg = Some message ->
  tools_module w
  = (preamble w args
     ++ [SchemaValidate cfg;
         PrintLine "ERROR: configuration file validation failed" [];
         PrintLine "       reason: {}" [VStr message]],
     Raise (SystemExit (-1))).
Proof.
  intros Hinvalid.
  apply (tools_module_loaded cfg); [assumption|].
  now apply bind_Raise, validate_invalid.
Qed.

Lemma dispatch_mode (mode : string) :
  dict_get cfg "mode" = Some (VStr mode) ->
  dispatch w args cfg
  = if String.eqb mode "verify" then run_verify w cfg
    else if String.eqb mode "margin" then run_margin w cfg
    else if String.eqb mode "yield" then run_yield w cfg
    else if String.eqb mode "optimize" then run_optimize w args cfg
    else raise (AssertionError "INTERNAL ERROR: UNREACHABLE CODE in tools.py").
Proof.
  intros Hmode. unfold dispatch, getitem. rewrite Hmode, bind_ret. reflexivity.
Qed.

End WholeRun.

(** * Main results *)

(** ** Start of the run *)

Lemma trace_parse_args (w : World) : trace (parse_args w) = [ParseArgs].
Proof. unfold parse_args. rewrite bind_emit. now destruct (command_line w). Qed.

(** C9.  Every run of the program executes the shell command
    [os.system("")] first, when the module is loaded: it is the first event
    of every run, in every world (whatever the command line, the
    configuration and its mode), and the parsing of the arguments comes
    right after it. *)
Theorem os_system_precedes_argument_parsing (w : World) :
  exists rest, trace (tools_module w) = OsSystem "" :: ParseArgs :: rest.
Proof.
  unfold tools_module, run. rewrite bind_emit. cbn [trace fst].
  rewrite trace_bind, trace_parse_args. eexists. reflexivity.
Qed.

(** ** Loading and validating the configuration *)

Lemma trace_validate_bind {B : Type} (w : World) (cfg : dict value) (k : unit -> M B) :
  exists t, trace (validate w cfg ;; k tt) = SchemaValidate cfg :: t.
Proof.
  destruct (validation_error w cfg) as [message|] eqn:Hv.
  - rewrite (bind_Raise _ _ _ _ (validate_invalid w cfg message Hv)). eexists. reflexivity.
  - rewrite (bind_Ok _ _ _ _ (validate_valid w cfg Hv)). eexists. reflexivity.
Qed.

Lemma preamble_events (w : World) (args : Args) (ev : event) :
  In ev (preamble w args) ->
  ev = OsSystem "" \/ ev = ParseArgs \/ ev = PrintLine "JoSIM Tools {}" [VStr (__version__ w)]
  \/ ev = PrintLine "Verbose mode enabled" [] \/ ev = TomlLoad (configuration args).
Proof.
  unfold preamble. destruct (verbose args); simpl; intuition auto.
Qed.

Lemma load_error_cases (w : World) (path : string) :
  (read_error w path = None ->
   load_error w path = FileNotFoundError path \/ load_error w path = TomlDecodeError) /\
  (forall f, read_error w path = Some f -> load_error w path = read_exception path f) /\
  exit_status (@Raise unit (load_error w path)) = 1 /\
  forall code, load_error w path <> SystemExit code.
Proof.
  unfold load_error. destruct (read_error w path) as [f|].
  - split; [discriminate|]. split; [now intros f' [= <-]|].
    destruct f; split; try reflexivity; discriminate.
  - split; [intros _; destruct (file_text w path); [now right | now left]|].
    split; [discriminate|].
    destruct (file_text w path); split; try reflexivity; discriminate.
Qed.

(** C8.  The configuration file is loaded as TOML before the schema
    validation runs: when the file loads, the validation event comes after
    the load event.  When the command line names a file that is missing or
    is not valid TOML, [toml_load] raises ([FileNotFoundError] or the TOML
    syntax error), nothing catches the exception and the run dies on it
    with status 1: the validation is never run, the line ERROR:
    configuration file validation failed is not printed and the run does
    not end in the [exit(-1)] of the validation handler.  The same holds of
    a path that cannot be read, with the exception of the failed read. *)
Theorem unloadable_configuration_is_uncaught (w : World) (args : Args) :
  command_line w = inl args ->
  (forall cfg, loaded_configuration w = Some cfg ->
     exists t, trace (tools_module w) = preamble w args ++ SchemaValidate cfg :: t) /\
  (loaded_configuration w = None ->
     exists e,
       (read_error w (configuration args) = None ->
        e = FileNotFoundError (configuration args) \/ e = TomlDecodeError) /\
       (forall f, read_error w (configuration args) = Some f ->
        e = read_exception (configuration args) f) /\
       tools_module w = (preamble w args, Raise e) /\
       exit_status (outcome (tools_module w)) = 1 /\
       (forall cfg, ~ In (SchemaValidate cfg) (trace (tools_module w))) /\
       ~ In (PrintLine "ERROR: configuration file validation failed" []) (trace (tools_module w)) /\
       outcome (tools_module w) <> Raise (SystemExit (-1))).
Proof.
  intros Hargs. split.
  - intros cfg Hcfg.
    destruct (trace_validate_bind w cfg (fun _ => dispatch w args cfg)) as [t Ht].
    exists t. rewrite <- Ht.
    now rewrite (tools_module_loaded w args Hargs cfg _ _ Hcfg (surjective_run _)).
  - intros Hnone. rewrite (tools_module_not_loaded w args Hargs Hnone).
    destruct (load_error_cases w (configuration args)) as [Hmissing [Hread [Hstatus Hexit]]].
    exists (load_error w (configuration args)).
    split; [exact Hmissing|]. split; [exact Hread|]. split; [reflexivity|].
    cbn [trace outcome fst snd]. repeat split.
    + exact Hstatus.
    + intros cfg Hin. apply preamble_events in Hin.
      repeat (destruct Hin as [Hin|Hin]; try discriminate).
    + intros Hin. apply preamble_events in Hin.
      repeat (destruct Hin as [Hin|Hin]; try discriminate).
    + intros [= H]. now apply (Hexit (-1)).
Qed.

(** C4.  When the configuration file loads but fails the schema validation,
    the run prints the error and its reason and exits through [exit(-1)],
    so with a non-zero status; its events are the preamble, the validation
    and the two printed lines, and no call into the package is among them:
    no Verifier, MarginAnalysis, YieldAnalysis or Optimizer is constructed
    or invoked. *)
Theorem invalid_configuration_exits_nonzero (w : World) (args : Args)
  (cfg : dict value) (message : string) :
  command_line w = inl args ->
  loaded_configuration w = Some cfg ->
  validation_error w cfg = Some message ->
  tools_module w
  = (preamble w args
     ++ [SchemaValidate cfg;
         PrintLine "ERROR: configuration file validation failed" [];
         PrintLine "       reason: {}" [VStr message]],
     Raise (SystemExit (-1))) /\
  exit_status (outcome (tools_module w)) <> 0 /\
  (forall c, ~ In (Call c) (trace (tools_module w))).
Proof.
  intros Hargs Hcfg Hinvalid.
  rewrite (tools_module_invalid w args Hargs cfg Hcfg message Hinvalid).
  split; [reflexivity|]. split; [discriminate|].
  intros c Hin. cbn [trace fst] in Hin. apply in_app_or in Hin.
  destruct Hin as [Hin|Hin].
  - apply preamble_events in Hin.
    repeat (destruct Hin as [Hin|Hin]; try discriminate).
  - simpl in Hin. repeat (destruct Hin as [Hin|Hin]; try discriminate). exact Hin.
Qed.

(** ** The dispatch on the mode *)

Ltac side_exn :=
  solve [ exact I | intros; exact I
        | red; intros; discriminate | intros; red; intros; discriminate ].

Lemma load_error_not_assertion (w : World) (path : string) :
  not_assertion (load_error w path).
Proof.
  intros msg. unfold load_error.
  destruct (read_error w path) as [f|]; [destruct f | destruct (file_text w path)];
    discriminate.
Qed.

Section NoAssertion.

Variable w : World.


Lemma verify_no_assertion (cfg : dict value) :
  triple any_event not_assertion (run_verify w cfg) (fun _ => True).
Proof.
  unfold run_verify. repeat (step; try side_exn).
  match goal with |- context [passed ?o] => destruct (passed o) end;
    repeat (step; try side_exn).
  match goal with |- context [failure_time ?o] => destruct (failure_time o) end;
    repeat (step; try side_exn);
    match goal with |- context [failure_point ?o] => destruct (failure_point o) end;
    repeat (step; try side_exn).
Qed.

Lemma margin_no_assertion (cfg : dict value) :
  triple any_event not_assertion (run_margin w cfg) (fun _ => True).
Proof.
  unfold run_margin, margin_parameters_of. repeat (step; try side_exn).
Qed.

Lemma yield_no_assertion (cfg : dict value) :
  triple any_event not_assertion (run_yield w cfg) (fun _ => True).
Proof.
  unfold run_yield, yield_parameters_of. repeat (step; try side_exn).
Qed.

Lemma optimize_no_assertion (args : Args) (cfg : dict value) :
  triple any_event not_assertion (run_optimize w args cfg) (fun _ => True).
Proof.
  unfold run_optimize, optimize_parameters_of, margin_parameters_of.
  repeat (step; try side_exn).
  match goal with
  | |- context [OptimizeConfiguration.output ?oc] =>
      destruct (OptimizeConfiguration.output oc)
  end;
    repeat (step; try side_exn).
Qed.

Hypothesis schema_checks_mode :
  forall cfg, validation_error w cfg = None -> schema_mode cfg = true.

Lemma dispatch_no_assertion (args : Args) (cfg : dict value) :
  validation_error w cfg = None ->
  triple any_event not_assertion (dispatch w args cfg) (fun _ => True).
Proof.
  intros Hvalid. apply schema_checks_mode in Hvalid.
  unfold schema_mode in Hvalid. unfold dispatch, getitem.
  destruct (dict_get cfg "mode") as [[mode| | | | |]|]; try discriminate.
  rewrite bind_ret. unfold value_eq_str. simpl in Hvalid.
  destruct (String.eqb mode "verify"); [apply verify_no_assertion|].
  destruct (String.eqb mode "margin"); [apply margin_no_assertion|].
  destruct (String.eqb mode "yield"); [apply yield_no_assertion|].
  destruct (String.eqb mode "optimize"); [apply optimize_no_assertion|].
  discriminate.
Qed.

Lemma run_no_assertion : triple any_event not_assertion (tools_module w) (fun _ => True).
Proof.
  unfold tools_module, run. step; [side_exn ..|].
  eapply triple_bind; [apply triple_parse_args; side_exn|]. intros args _.
  step; [side_exn ..|].
  apply triple_bind with (R := fun _ => True);
    [destruct (verbose args); [apply triple_print | apply triple_ret]; side_exn|].
  intros _ _.
  eapply triple_bind;
    [apply triple_toml_load; [side_exn | apply load_error_not_assertion]|].
  intros cfg _.
  step; [side_exn ..|].
  now apply dispatch_no_assertion.
Qed.

End NoAssertion.

(** C5.  The last branch of the dispatch, which asserts INTERNAL ERROR:
    UNREACHABLE CODE, is unreachable once the configuration has passed a
    schema validation that accepts only the four modes: in a world whose
    validator does so, no run ends in that [AssertionError].  The branch is
    not a handled user error: a dispatch on a configuration whose mode is
    none of the four raises the [AssertionError], uncaught, before anything
    else is done. *)
Theorem unreachable_branch_is_unreachable (w : World) :
  (forall cfg, validation_error w cfg = None -> schema_mode cfg = true) ->
  (forall msg, outcome (tools_module w) <> Raise (AssertionError msg)) /\
  (forall args cfg,
     dict_get cfg "mode" <> None -> schema_mode cfg = false ->
     dispatch w args cfg
     = ([], Raise (AssertionError "INTERNAL ERROR: UNREACHABLE CODE in tools.py")) /\
     exit_status (outcome (dispatch w args cfg)) = 1).
Proof.
  intros Hschema. split.
  - intros msg. destruct (run_no_assertion w Hschema) as [_ Hout].
    destruct (outcome (tools_module w)) as [[]|e]; [discriminate|].
    intros [= ->]. now apply (Hout msg).
  - intros args cfg Hmode Hbad.
    assert (Hd : dispatch w args cfg
                 = ([], Raise (AssertionError "INTERNAL ERROR: UNREACHABLE CODE in tools.py"))).
    { unfold schema_mode in Hbad. unfold dispatch, getitem.
      destruct (dict_get cfg "mode") as [mode|]; [|congruence].
      rewrite bind_ret. unfold value_eq_str.
      destruct mode as [mode| | | | |]; try reflexivity.
      simpl in Hbad.
      destruct (String.eqb mode "verify"); [discriminate|].
      destruct (String.eqb mode "margin"); [discriminate|].
      destruct (String.eqb mode "yield"); [discriminate|].
      destruct (String.eqb mode "optimize"); [discriminate|].
      reflexivity. }
    now rewrite Hd.
Qed.

(** ** Completed analyses *)

Lemma present_inv (v : option value) : present v = true -> exists d, v = Some d.
Proof. destruct v as [d|]; [now exists d | discriminate]. Qed.

Lemma is_table_inv (v : option value) : is_table v = true -> exists its, v = Some (VTable its).
Proof. destruct v as [[]|]; try discriminate. eexists. reflexivity. Qed.

(** Searching the trace of a completed run for a call that a mode makes. *)
Ltac find_call :=
  cbn [trace fst];
  unfold optimize_trace, margin_analysis_trace;
  repeat first [left; reflexivity | apply in_or_app; right | right].

(** C2.  The worker count that the driver passes to an analysis engine is a
    function of the size of the work and of the number of CPUs.  In every
    run, every margin analysis (the one of margin mode and the one after
    the optimization) is called with the named parameters of the
    configuration and [min(2 * number_of_parameters, cpu_count())] workers,
    and every yield analysis with the configured number of samples and
    [min(num_samples, cpu_count())] workers; without parameters or without
    samples the count is zero.  And the count is passed: a run that
    completes in margin or optimize mode calls the margin analysis with
    that count, and a run that completes in yield mode calls the sampling
    with the configured number of samples and that count. *)
Theorem worker_count_policy (w : World) :
  1 <= cpu_count w ->
  Forall (worker_policy w) (trace (tools_module w)) /\
  forall (args : Args) (cfg : dict value) (mode : string),
    Reliable w ->
    command_line w = inl args ->
    loaded_configuration w = Some cfg ->
    validation_error w cfg = None ->
    dict_get cfg "mode" = Some (VStr mode) ->
    tables_present cfg mode = true ->
    (mode = "margin" \/ mode = "optimize" ->
     exists vc mc parameters,
       len parameters = number_of_parameters w /\
       In (Call (MarginAnalysis_analyse vc mc parameters
                   (Z.min (2 * number_of_parameters w) (cpu_count w))))
         (trace (tools_module w))) /\
    (mode = "yield" ->
     exists vc yps,
       In (Call (YieldAnalysis_sample vc yps (configured_num_samples w)
                   (Z.min (configured_num_samples w) (cpu_count w))))
         (trace (tools_module w))).
Proof.
  intros Hcpu. pose proof (proj1 (policy_run w Hcpu)) as Hall.
  split; [exact Hall|].
  intros args cfg mode Hrel Hargs Hcfg Hvalid Hmode Htables.
  rewrite Forall_forall in Hall.
  unfold tables_present in Htables.
  apply andb_prop in Htables as [Htables Ho].
  apply andb_prop in Htables as [Htables Hy].
  apply andb_prop in Htables as [Hv Hps].
  apply present_inv in Hv as [d Hd].
  pose proof (dispatch_mode w args cfg mode Hmode) as Hdispatch.
  split.
  - intros Hm.
    assert (Hin : exists vc mc parameters n,
               In (Call (MarginAnalysis_analyse vc mc parameters n))
                 (trace (tools_module w))).
    { destruct Hm as [-> | ->]; simpl in Hdispatch, Hps, Ho;
        apply is_table_inv in Hps as [its Hps].
      - rewrite (run_margin_reliable w Hrel cfg d its Hd Hps) in Hdispatch.
        rewrite (tools_module_valid w args Hargs cfg Hcfg _ _ Hvalid Hdispatch).
        do 4 eexists. find_call.
      - apply present_inv in Ho as [o Ho].
        rewrite (run_optimize_reliable w Hrel cfg args d o its Hd Ho Hps) in Hdispatch.
        rewrite (tools_module_valid w args Hargs cfg Hcfg _ _ Hvalid Hdispatch).
        do 4 eexists. find_call. }
    destruct Hin as [vc [mc [parameters [n Hin]]]].
    pose proof (Hall _ Hin) as Hpolicy. cbn [worker_policy] in Hpolicy.
    destruct Hpolicy as [Hlen [Hn _]]. subst n.
    now exists vc, mc, parameters.
  - intros ->. simpl in Hdispatch, Hps, Hy.
    apply is_table_inv in Hps as [its Hps].
    apply present_inv in Hy as [y Hy].
    assert (Hin : exists vc yps num_samples n,
               In (Call (YieldAnalysis_sample vc yps num_samples n))
                 (trace (tools_module w))).
    { destruct (percentage_total
                  (sampled w (verify_configuration_of w d)
                     (dict_of_items (yield_parameter_of w) its)
                     (YieldAnalysisConfiguration.num_samples (yield_configuration_of w y))
                     (Z.min (YieldAnalysisConfiguration.num_samples (yield_configuration_of w y))
                        (cpu_count w)))) as [p Hp].
      rewrite (run_yield_reliable w Hrel cfg d y its Hd Hy Hps p Hp) in Hdispatch.
      rewrite (tools_module_valid w args Hargs cfg Hcfg _ _ Hvalid Hdispatch).
      do 4 eexists. find_call. }
    destruct Hin as [vc [yps [num_samples [n Hin]]]].
    pose proof (Hall _ Hin) as Hpolicy. cbn [worker_policy] in Hpolicy.
    destruct Hpolicy as [Hsamples [Hn _]]. subst n num_samples.
    now exists vc, yps.
Qed.

(** C3.  Not every run whose validated mode is one of verify, margin,
    yield and optimize ends with status zero: a call into the package that
    raises, or an optimized point that is too short, ends the run with
    status 1.  When the analysis completes (the tables that the mode reads
    are in the configuration, no call into the package raises and the
    optimizer returns one value per parameter), the run performs the
    analysis of its mode to the end, returns, and the exit status is zero,
    whatever the analysis reports.  The events after the validation are
    then exactly: in verify mode the construction and the call of the
    verifier and its report; in margin mode the margin analysis of the
    nominal values and its report; in yield mode the sampling and the line
    Yield; in optimize mode the optimization, the write if asked for and
    the margin analysis of the optimized point.  A failed verification
    prints FAILURE and its metadata, and the status is still zero. *)
Theorem completed_analysis_exits_zero (w : World) (args : Args)
  (cfg : dict value) (mode : string) :
  Reliable w ->
  command_line w = inl args ->
  loaded_configuration w = Some cfg ->
  validation_error w cfg = None ->
  dict_get cfg "mode" = Some (VStr mode) ->
  In mode MODES ->
  tables_present cfg mode = true ->
  outcome (tools_module w) = Ok tt /\
  exit_status (outcome (tools_module w)) = 0 /\
  (mode = "verify" ->
   forall d, dict_get cfg "verify" = Some d ->
   let output := verified w (verify_configuration_of w d) in
   passed output = false ->
   exists before,
     trace (tools_module w) = before ++ PrintLine "FAILURE" [] :: failure_metadata output) /\
  exists d,
    dict_get cfg "verify" = Some d /\
    let vc := verify_configuration_of w d in
    let m := dict_get_default cfg "margin" (VTable []) in
    let validated := preamble w args ++ [SchemaValidate cfg] in
    (mode = "verify" ->
     trace (tools_module w)
     = validated
       ++ PrintLine "=== Verify circuit operation ===" []
       :: Call (VerifyConfiguration_from_dict d)
       :: Call (Verifier_init vc)
       :: Call (Verifier_verify vc)
       :: verify_report (verified w vc)) /\
    (mode = "margin" ->
     exists its,
       dict_get cfg "parameters" = Some (VTable its) /\
       trace (tools_module w)
       = validated
         ++ PrintLine "=== Margin analysis ===" []
         :: margin_analysis_trace w d m its
              (margin_nominals (dict_of_items (margin_parameter_of w) its))) /\
    (mode = "yield" ->
     exists y its percentage,
       dict_get cfg "yield" = Some y /\
       dict_get cfg "parameters" = Some (VTable its) /\
       let yps := dict_of_items (yield_parameter_of w) its in
       let num_samples :=
         YieldAnalysisConfiguration.num_samples (yield_configuration_of w y) in
       let num_threads := Z.min num_samples (cpu_count w) in
       let counts := sampled w vc yps num_samples num_threads in
       YieldAnalysis_percentage counts = Ok percentage /\
       trace (tools_module w)
       = validated
         ++ PrintLine "=== Yield analysis ===" []
         :: Call (VerifyConfiguration_from_dict d)
         :: Call (YieldAnalysisConfiguration_from_dict y)
         :: from_dict_events YieldParameterConfiguration_from_dict its
         ++ [Call (YieldAnalysis_init vc yps);
             Call (YieldAnalysis_sample vc yps num_samples num_threads);
             PrintLine "Yield: {} / {} = {:.1f} %"
               [VInt (num_success counts); VInt (num_total counts);
                VFloat (PrimFloat.mul percentage 100)]]) /\
    (mode = "optimize" ->
     exists o its,
       dict_get cfg "optimize" = Some o /\
       dict_get cfg "parameters" = Some (VTable its) /\
       trace (tools_module w) = validated ++ optimize_trace w args d m o its).
Proof.
  intros Hrel Hargs Hcfg Hvalid Hmode Hin Htables.
  unfold tables_present in Htables.
  apply andb_prop in Htables as [Htables Ho].
  apply andb_prop in Htables as [Htables Hy].
  apply andb_prop in Htables as [Hv Hps].
  apply present_inv in Hv as [d Hd].
  pose proof (dispatch_mode w args cfg mode Hmode) as Hdispatch.
  simpl in Hin. destruct Hin as [<-|[<-|[<-|[<-|[]]]]]; simpl in Hdispatch, Hps, Hy, Ho.
  - (* verify *)
    rewrite (run_verify_reliable w Hrel cfg d Hd) in Hdispatch.
    rewrite (tools_module_valid w args Hargs cfg Hcfg _ _ Hvalid Hdispatch).
    split; [reflexivity|]. split; [reflexivity|]. split.
    + intros _ d' Hd' output Hfailed.
      assert (d' = d) by congruence. subst d'.
      cbn [trace fst]. unfold verify_report. fold output. rewrite Hfailed.
      exists (preamble w args
              ++ [SchemaValidate cfg;
                  PrintLine "=== Verify circuit operation ===" [];
                  Call (VerifyConfiguration_from_dict d);
                  Call (Verifier_init (verify_configuration_of w d));
                  Call (Verifier_verify (verify_configuration_of w d))]).
      now rewrite <- app_assoc.
    + exists d. split; [exact Hd|]. cbn zeta. cbn [trace fst].
      split; [intros _; now rewrite <- app_assoc|].
      repeat split; discriminate.
  - (* margin *)
    apply is_table_inv in Hps as [its Hps].
    rewrite (run_margin_reliable w Hrel cfg d its Hd Hps) in Hdispatch.
    rewrite (tools_module_valid w args Hargs cfg Hcfg _ _ Hvalid Hdispatch).
    split; [reflexivity|]. split; [reflexivity|]. split; [discriminate|].
    exists d. split; [exact Hd|]. cbn zeta. cbn [trace fst].
    split; [discriminate|]. split; [|split; discriminate].
    intros _. exists its. split; [exact Hps|]. now rewrite <- app_assoc.
  - (* yield *)
    apply is_table_inv in Hps as [its Hps].
    apply present_inv in Hy as [y Hy].
    destruct (percentage_total
                (sampled w (verify_configuration_of w d)
                   (dict_of_items (yield_parameter_of w) its)
                   (YieldAnalysisConfiguration.num_samples (yield_configuration_of w y))
                   (Z.min (YieldAnalysisConfiguration.num_samples (yield_configuration_of w y))
                      (cpu_count w)))) as [p Hp].
    rewrite (run_yield_reliable w Hrel cfg d y its Hd Hy Hps p Hp) in Hdispatch.
    rewrite (tools_module_valid w args Hargs cfg Hcfg _ _ Hvalid Hdispatch).
    split; [reflexivity|]. split; [reflexivity|]. split; [discriminate|].
    exists d. split; [exact Hd|]. cbn zeta. cbn [trace fst].
    split; [discriminate|]. split; [discriminate|]. split; [|discriminate].
    intros _. exists y, its, p. split; [exact Hy|]. split; [exact Hps|].
    split; [exact Hp|]. now rewrite <- app_assoc.
  - (* optimize *)
    apply is_table_inv in Hps as [its Hps].
    apply present_inv in Ho as [o Ho].
    rewrite (run_optimize_reliable w Hrel cfg args d o its Hd Ho Hps) in Hdispatch.
    rewrite (tools_module_valid w args Hargs cfg Hcfg _ _ Hvalid Hdispatch).
    split; [reflexivity|]. split; [reflexivity|]. split; [discriminate|].
    exists d. split; [exact Hd|]. cbn zeta. cbn [trace fst].
    split; [discriminate|]. split; [discriminate|]. split; [discriminate|].
    intros _. exists o, its. split; [exact Ho|]. split; [exact Hps|].
    now rewrite <- app_assoc.
Qed.

(** ** Optimize mode *)

Lemma from_dict_events_In (mk : value -> call) (its : dict value) (ev : event) :
  In ev (from_dict_events mk its) -> exists item, ev = Call (mk item).
Proof.
  unfold from_dict_events. rewrite in_map_iff.
  intros [[k item] [Hev _]]. now exists item.
Qed.

(** Case analysis of a membership in an explicit trace. *)
Ltac in_trace H :=
  repeat match type of H with
         | In _ (_ ++ _) => apply in_app_or in H; destruct H as [H|H]
         | In _ (_ :: _) => destruct H as [H|H]; [try discriminate H|]
         | In _ [] => destruct H
         | In _ (from_dict_events _ _) =>
             apply from_dict_events_In in H; destruct H as [? H]; try discriminate H
         | In _ (preamble _ _) =>
             apply preamble_events in H;
             repeat (destruct H as [H|H]; try discriminate H)
         end.


(** C7.  In optimize mode, in a run that completes, the optimizer is called
    and returns the optimized point; then the verifier's file writer is
    called with the output path and that point if and only if an output
    path is configured (and it is the only write, made by the driver, not
    by the optimizer call); then a full margin analysis of the optimized
    point, under its names, is run and printed: the run ends with it. *)
Theorem optimize_writes_then_reanalyses (w : World) (args : Args)
  (cfg : dict value) (d o : value) (its : dict value) :
  Reliable w ->
  command_line w = inl args ->
  loaded_configuration w = Some cfg ->
  validation_error w cfg = None ->
  dict_get cfg "mode" = Some (VStr "optimize") ->
  dict_get cfg "verify" = Some d ->
  dict_get cfg "optimize" = Some o ->
  dict_get cfg "parameters" = Some (VTable its) ->
  let m := dict_get_default cfg "margin" (VTable []) in
  let vc := verify_configuration_of w d in
  let oc := optimize_configuration_of w o in
  let optimized_point := optimized_point_of w args d m o its in
  tools_module w
  = (preamble w args ++ SchemaValidate cfg :: optimize_trace w args d m o its, Ok tt) /\
  (forall vc' path point,
     In (Call (write_file_with_updated_parameters vc' path point)) (trace (tools_module w))
     <-> OptimizeConfiguration.output oc = Some path /\ vc' = vc /\ point = optimized_point) /\
  (exists before,
     trace (tools_module w)
     = before
       ++ PrintLine "=== Optimized circuit margin analysis ===" []
       :: margin_analysis_trace w d m its
            (combine (dict_keys (dict_of_items (optimizer_parameter_of w) its))
               optimized_point)).
Proof.
  intros Hrel Hargs Hcfg Hvalid Hmode Hd Ho Hps m vc oc optimized_point.
  pose proof (dispatch_mode w args cfg "optimize" Hmode) as Hdispatch.
  simpl in Hdispatch.
  rewrite (run_optimize_reliable w Hrel cfg args d o its Hd Ho Hps) in Hdispatch.
  fold m in Hdispatch.
  rewrite (tools_module_valid w args Hargs cfg Hcfg _ _ Hvalid Hdispatch).
  split; [reflexivity|]. cbn [trace fst]. split.
  - intros vc' path point. unfold optimize_trace, write_events, margin_analysis_trace.
    fold vc oc optimized_point. split.
    + intros Hin. in_trace Hin.
      destruct (OptimizeConfiguration.output oc) as [output_file|]; in_trace Hin.
      now injection Hin as <- <- <-.
    + intros [Hout [-> ->]]. rewrite Hout.
      apply in_or_app. right. do 5 right.
      apply in_or_app. right. do 2 right. now left.
  - unfold optimize_trace, named_point. fold vc oc optimized_point.
    eexists (preamble w args
             ++ [SchemaValidate cfg; _; _; _; _]
             ++ from_dict_events OptimizerParameterConfiguration_from_dict its
             ++ [_; _] ++ write_events w args d m o its).
    repeat (rewrite <- app_assoc; cbn [app]). reflexivity.
Qed.

(** ** Yield mode *)

(** C6.  The yield percentage is derived from the two counters: it is
    always defined, it is [0] when [num_total == 0], so that no division by
    zero happens, and [num_success / num_total] otherwise.  A run in yield
    mode that completes ends with the line
    Yield: success / total = percentage %,
    where the percentage is that value times 100, shown with one decimal. *)
Theorem yield_percentage_report (w : World) (args : Args)
  (cfg : dict value) (d y : value) (its : dict value) :
  Reliable w ->
  command_line w = inl args ->
  loaded_configuration w = Some cfg ->
  validation_error w cfg = None ->
  dict_get cfg "mode" = Some (VStr "yield") ->
  dict_get cfg "verify" = Some d ->
  dict_get cfg "yield" = Some y ->
  dict_get cfg "parameters" = Some (VTable its) ->
  let num_samples := YieldAnalysisConfiguration.num_samples (yield_configuration_of w y) in
  let counts :=
    sampled w (verify_configuration_of w d) (dict_of_items (yield_parameter_of w) its)
      num_samples (Z.min num_samples (cpu_count w)) in
  (forall r : YieldResult,
     exists percentage,
       YieldAnalysis_percentage r = Ok percentage /\
       (num_total r = 0 -> percentage = 0%float) /\
       (num_total r <> 0 ->
        percentage = PrimFloat.div (float_of_int (num_success r)) (float_of_int (num_total r)))) /\
  (exists percentage before,
     YieldAnalysis_percentage counts = Ok percentage /\
     tools_module w
     = (before
        ++ [PrintLine "Yield: {} / {} = {:.1f} %"
              [VInt (num_success counts); VInt (num_total counts);
               VFloat (PrimFloat.mul percentage 100)]],
        Ok tt)).
Proof.
  intros Hrel Hargs Hcfg Hvalid Hmode Hd Hy Hps num_samples counts. split.
  - intros r. unfold YieldAnalysis_percentage, int_truediv.
    destruct (Z.eqb_spec (num_total r) 0) as [Hz|Hnz]; eexists;
      (split; [reflexivity|]); split; intros H; congruence.
  - destruct (percentage_total counts) as [percentage Hp].
    exists percentage.
    pose proof (dispatch_mode w args cfg "yield" Hmode) as Hdispatch.
    simpl in Hdispatch.
    rewrite (run_yield_reliable w Hrel cfg d y its Hd Hy Hps percentage Hp) in Hdispatch.
    rewrite (tools_module_valid w args Hargs cfg Hcfg _ _ Hvalid Hdispatch).
    eexists (preamble w args
             ++ [SchemaValidate cfg; _; _; _]
             ++ from_dict_events YieldParameterConfiguration_from_dict its
             ++ [_; _]).
    split; [exact Hp|].
    repeat (rewrite <- app_assoc; cbn [app]). reflexivity.
Qed.

(** ** Optional and required tables *)

Lemma run_missing_verify (w : World) (args : Args) (cfg : dict value) (mode : string) :
  dict_get cfg "mode" = Some (VStr mode) ->
  In mode MODES ->
  dict_get cfg "verify" = None ->
  outcome (dispatch w args cfg) = Raise (KeyError "verify").
Proof.
  intros Hmode Hin Hv. rewrite (dispatch_mode w args cfg mode Hmode).
  simpl in Hin. destruct Hin as [<-|[<-|[<-|[<-|[]]]]]; simpl;
    unfold run_verify, run_margin, run_yield, run_optimize, print;
    now rewrite bind_emit, (bind_getitem_missing _ _ _ Hv).
Qed.

(** C10.  The table [margin] is optional: it is read with
    [configuration.get("margin", {})], so when it is missing, margin mode
    and optimize mode run to completion with the margin configuration built
    from the empty table.  The tables [verify], [yield] and [optimize] are
    indexed directly: when the validation lets a configuration without one
    of them through, the mode that reads it dies on an uncaught [KeyError]
    ([verify] in every mode, [yield] in yield mode, [optimize] in optimize
    mode), with status 1. *)
Theorem margin_table_optional_others_required (w : World) (args : Args)
  (cfg : dict value) (mode : string) :
  Reliable w ->
  command_line w = inl args ->
  loaded_configuration w = Some cfg ->
  validation_error w cfg = None ->
  dict_get cfg "mode" = Some (VStr mode) ->
  (dict_get cfg "margin" = None ->
   forall d its,
     dict_get cfg "verify" = Some d ->
     dict_get cfg "parameters" = Some (VTable its) ->
     (mode = "margin" ->
      tools_module w
      = (preamble w args
         ++ SchemaValidate cfg
         :: PrintLine "=== Margin analysis ===" []
         :: margin_analysis_trace w d (VTable []) its
              (margin_nominals (dict_of_items (margin_parameter_of w) its)),
         Ok tt)) /\
     (mode = "optimize" ->
      forall o, dict_get cfg "optimize" = Some o ->
      tools_module w
      = (preamble w args ++ SchemaValidate cfg :: optimize_trace w args d (VTable []) o its,
         Ok tt))) /\
  (In mode MODES -> dict_get cfg "verify" = None ->
   outcome (tools_module w) = Raise (KeyError "verify") /\
   exit_status (outcome (tools_module w)) = 1) /\
  (mode = "yield" -> dict_get cfg "verify" <> None -> dict_get cfg "yield" = None ->
   outcome (tools_module w) = Raise (KeyError "yield") /\
   exit_status (outcome (tools_module w)) = 1) /\
  (mode = "optimize" -> dict_get cfg "verify" <> None -> dict_get cfg "optimize" = None ->
   outcome (tools_module w) = Raise (KeyError "optimize") /\
   exit_status (outcome (tools_module w)) = 1).
Proof.
  intros Hrel Hargs Hcfg Hvalid Hmode.
  pose proof (dispatch_mode w args cfg mode Hmode) as Hdispatch.
  assert (Hrun : tools_module w
                 = (preamble w args ++ SchemaValidate cfg :: trace (dispatch w args cfg),
                    outcome (dispatch w args cfg))).
  { apply (tools_module_valid w args Hargs cfg Hcfg); [assumption | apply surjective_run]. }
  split; [|split; [|split]].
  - intros Hmargin d its Hd Hps.
    assert (Hm : dict_get_default cfg "margin" (VTable []) = VTable [])
      by (unfold dict_get_default; now rewrite Hmargin).
    split.
    + intros ->. simpl in Hdispatch.
      rewrite (run_margin_reliable w Hrel cfg d its Hd Hps), Hm in Hdispatch.
      now rewrite Hrun, Hdispatch.
    + intros -> o Ho. simpl in Hdispatch.
      rewrite (run_optimize_reliable w Hrel cfg args d o its Hd Ho Hps), Hm in Hdispatch.
      now rewrite Hrun, Hdispatch.
  - intros Hin Hv. rewrite Hrun. cbn [outcome snd].
    now rewrite (run_missing_verify w args cfg mode Hmode Hin Hv).
  - intros -> Hv Hy. destruct (dict_get cfg "verify") as [d|] eqn:Hd; [|congruence].
    simpl in Hdispatch. rewrite Hrun, Hdispatch. cbn [outcome snd].
    unfold run_yield, print.
    rewrite bind_emit, (bind_getitem_eq _ _ _ _ _ _ Hd (surjective_run _)).
    cbn [outcome snd].
    rewrite (bind_invoke_eq w Hrel _ _ _ _ _ (surjective_run _)). cbn [outcome snd].
    now rewrite (bind_getitem_missing _ _ _ Hy).
  - intros -> Hv Ho. destruct (dict_get cfg "verify") as [d|] eqn:Hd; [|congruence].
    simpl in Hdispatch. rewrite Hrun, Hdispatch. cbn [outcome snd].
    unfold run_optimize, print.
    rewrite bind_emit, (bind_getitem_eq _ _ _ _ _ _ Hd (surjective_run _)).
    cbn [outcome snd].
    rewrite (bind_invoke_eq w Hrel _ _ _ _ _ (surjective_run _)). cbn [outcome snd].
    rewrite (bind_invoke_eq w Hrel _ _ _ _ _ (surjective_run _)). cbn [outcome snd].
    now rewrite (bind_getitem_missing _ _ _ Ho).
Qed.

(** * The results on the example worlds *)

Lemma example_world_reliable command text parsed error output successes :
  Reliable (example_world command text parsed error output successes).
Proof.
  constructor; [reflexivity|].
  intros vc mc oc ops vb initial. simpl. apply length_map.
Qed.

Lemma example_validation_checks_mode (cfg : dict value) :
  example_validation cfg = None -> schema_mode cfg = true.
Proof. unfold example_validation. now destruct (schema_mode cfg). Qed.

Lemma example_parameters_distinct : NoDup (dict_keys example_parameters).
Proof.
  repeat constructor; simpl; intuition discriminate.
Qed.


(** Searching an explicit trace for an event. *)
Ltac find_event := repeat (first [left; reflexivity | right]).

(** Two parameters and eight CPUs: four workers, in margin mode and after
    the optimization. *)
Example margin_mode_workers :
  exists vc mc,
    In (Call (MarginAnalysis_analyse vc mc [("R1", 1%float); ("L1", 2%float)] 4))
      (trace (tools_module (example_run "margin"))).
Proof. vm_compute. do 2 eexists. find_event. Qed.

Example optimize_mode_workers :
  exists vc mc,
    In (Call (MarginAnalysis_analyse vc mc [("R1", 2%float); ("L1", 3%float)] 4))
      (trace (tools_module (example_run "optimize"))).
Proof. vm_compute. do 2 eexists. find_event. Qed.

(** Ten samples and eight CPUs: eight workers. *)
Example yield_mode_workers :
  exists vc yps,
    In (Call (YieldAnalysis_sample vc yps 10 8))
      (trace (tools_module (example_run "yield"))).
Proof. vm_compute. do 2 eexists. find_event. Qed.

(** No parameters, no samples: no workers. *)
Example no_parameters_no_workers :
  exists vc mc,
    In (Call (MarginAnalysis_analyse vc mc [] 0))
      (trace (tools_module (example_empty "margin"))).
Proof. vm_compute. do 2 eexists. find_event. Qed.

Example no_samples_no_workers :
  exists vc yps,
    In (Call (YieldAnalysis_sample vc yps 0 0))
      (trace (tools_module (example_empty "yield"))).
Proof. vm_compute. do 2 eexists. find_event. Qed.

Lemma worker_count_policy_witness :
  1 <= cpu_count (example_run "margin") /\
  number_of_parameters (example_run "margin") = 2 /\
  Forall (worker_policy (example_run "margin")) (trace (tools_module (example_run "margin"))) /\
  exists vc mc parameters,
    len parameters = 2 /\
    In (Call (MarginAnalysis_analyse vc mc parameters 4))
      (trace (tools_module (example_run "margin"))).
Proof.
  assert (Hcpu : 1 <= cpu_count (example_run "margin")) by (simpl; lia).
  destruct (worker_count_policy (example_run "margin") Hcpu) as [Hall Hcalls].
  destruct (Hcalls example_args (example_configuration "margin") "margin"
              (example_world_reliable _ _ _ _ _ _) eq_refl eq_refl eq_refl eq_refl eq_refl)
    as [Hmargin _].
  destruct (Hmargin (or_introl eq_refl)) as [vc [mc [parameters [Hlen Hin]]]].
  split; [exact Hcpu|]. split; [reflexivity|]. split; [exact Hall|].
  exists vc, mc, parameters. split; [exact Hlen | exact Hin].
Defined.

(** A failed verification: the verifier is constructed and called, FAILURE
    and the failure time are printed, and the exit status is zero. *)
Lemma completed_analysis_exits_zero_witness :
  let w := example_run "verify" in
  outcome (tools_module w) = Ok tt /\
  exit_status (outcome (tools_module w)) = 0 /\
  (exists before,
     trace (tools_module w)
     = before ++ [PrintLine "FAILURE" []; PrintLine "  TIME  : {}" [VFloat 1.5]]) /\
  exists vc,
    trace (tools_module w)
    = [OsSystem ""; ParseArgs; PrintLine "JoSIM Tools {}" [VStr "1.0"];
       TomlLoad "circuit.toml"; SchemaValidate (example_configuration "verify");
       PrintLine "=== Verify circuit operation ===" [];
       Call (VerifyConfiguration_from_dict (VTable [("circuit", VStr "circuit.cir")]));
       Call (Verifier_init vc); Call (Verifier_verify vc);
       PrintLine "FAILURE" []; PrintLine "  TIME  : {}" [VFloat 1.5]].
Proof.
  intros w.
  destruct (completed_analysis_exits_zero w example_args (example_configuration "verify")
              "verify" (example_world_reliable _ _ _ _ _ _)
              eq_refl eq_refl eq_refl eq_refl (or_introl eq_refl) eq_refl)
    as [Hout [Hstatus [Hfailure [d [Hd [Hverify _]]]]]].
  split; [exact Hout|]. split; [exact Hstatus|]. split.
  - exact (Hfailure eq_refl (VTable [("circuit", VStr "circuit.cir")]) eq_refl eq_refl).
  - injection Hd as <-.
    exists (verify_configuration_of w (VTable [("circuit", VStr "circuit.cir")])).
    exact (Hverify eq_refl).
Defined.

(** Validated runs in one of the four modes that end with status 1: the
    verifier raises (no simulator); the writer of the optimized netlist
    raises (the output path is not writable); the optimizer returns a
    point shorter than the list of parameters, although no call raises. *)
Lemma completed_analysis_exits_zero_counterexample :
  (let w := example_failing_verifier in
   let cfg := example_configuration "verify" in
   command_line w = inl example_args /\
   loaded_configuration w = Some cfg /\
   validation_error w cfg = None /\
   dict_get cfg "mode" = Some (VStr "verify") /\
   In "verify" MODES /\
   tables_present cfg "verify" = true /\
   outcome (tools_module w) = Raise (ComponentError "simulator not found") /\
   exit_status (outcome (tools_module w)) = 1) /\
  (let w := example_unwritable_output in
   let cfg := example_configuration "optimize" in
   command_line w = inl example_args /\
   loaded_configuration w = Some cfg /\
   validation_error w cfg = None /\
   dict_get cfg "mode" = Some (VStr "optimize") /\
   In "optimize" MODES /\
   tables_present cfg "optimize" = true /\
   outcome (tools_module w) = Raise (ComponentError "optimized.cir is not writable") /\
   exit_status (outcome (tools_module w)) = 1) /\
  (let w := example_short_optimizer in
   let cfg := example_configuration "optimize" in
   command_line w = inl example_args /\
   loaded_configuration w = Some cfg /\
   validation_error w cfg = None /\
   dict_get cfg "mode" = Some (VStr "optimize") /\
   In "optimize" MODES /\
   tables_present cfg "optimize" = true /\
   (forall c, fails w c = None) /\
   outcome (tools_module w) = Raise IndexError /\
   exit_status (outcome (tools_module w)) = 1).
Proof.
  cbv zeta.
  repeat match goal with
         | |- _ /\ _ => split
         | |- In _ MODES => simpl; tauto
         | |- forall c, _ => intros c; reflexivity
         | |- _ = _ => vm_compute; reflexivity
         end.
Qed.

(** A configuration whose mode is not a mode. *)
Lemma invalid_configuration_exits_nonzero_witness :
  let w := example_run "simulate" in
  trace (tools_module w)
  = [OsSystem ""; ParseArgs; PrintLine "JoSIM Tools {}" [VStr "1.0"];
     TomlLoad "circuit.toml"; SchemaValidate (example_configuration "simulate");
     PrintLine "ERROR: configuration file validation failed" [];
     PrintLine "       reason: {}" [VStr "'mode' is not one of the modes"]] /\
  exit_status (outcome (tools_module w)) = 255 /\
  forall c, ~ In (Call c) (trace (tools_module w)).
Proof.
  intros w.
  destruct (invalid_configuration_exits_nonzero w example_args
              (example_configuration "simulate") "'mode' is not one of the modes"
              eq_refl eq_refl eq_refl)
    as [Hrun [Hstatus Hcalls]].
  split; [now rewrite Hrun|]. split; [now rewrite Hrun | exact Hcalls].
Defined.

Lemma unreachable_branch_is_unreachable_witness :
  (forall msg, outcome (tools_module (example_run "verify")) <> Raise (AssertionError msg)) /\
  dispatch (example_run "verify") example_args (example_configuration "simulate")
  = ([], Raise (AssertionError "INTERNAL ERROR: UNREACHABLE CODE in tools.py")).
Proof.
  destruct (unreachable_branch_is_unreachable (example_run "verify")
              example_validation_checks_mode) as [Hnever Hdefect].
  split; [exact Hnever|].
  assert (Hmode : dict_get (example_configuration "simulate") "mode" <> None)
    by discriminate.
  exact (proj1 (Hdefect example_args (example_configuration "simulate") Hmode eq_refl)).
Defined.

(** Eight successes among ten samples. *)
Lemma yield_percentage_report_witness :
  let w := example_run "yield" in
  YieldAnalysis_percentage {| num_success := 0; num_total := 0 |} = Ok 0%float /\
  exists before,
    tools_module w
    = (before ++ [PrintLine "Yield: {} / {} = {:.1f} %" [VInt 8; VInt 10; VFloat 80]], Ok tt).
Proof.
  intros w.
  destruct (yield_percentage_report w example_args (example_configuration "yield")
              (VTable [("circuit", VStr "circuit.cir")])
              (VTable [("num_samples", VInt 10)]) example_parameters
              (example_world_reliable _ _ _ _ _ _)
              eq_refl eq_refl eq_refl eq_refl eq_refl eq_refl eq_refl)
    as [Hpercentage [percentage [before [Hp Hrun]]]].
  split; [reflexivity|].
  exists before. rewrite Hrun.
  vm_compute in Hp. injection Hp as <-. reflexivity.
Defined.

(** The netlist is written to the configured path with the optimized
    point. *)
Lemma optimize_writes_then_reanalyses_witness :
  let w := example_run "optimize" in
  In (Call (write_file_with_updated_parameters
              {| VerifyConfiguration.settings := VTable [("circuit", VStr "circuit.cir")] |}
              "optimized.cir" [2%float; 3%float]))
    (trace (tools_module w)) /\
  outcome (tools_module w) = Ok tt.
Proof.
  intros w.
  destruct (optimize_writes_then_reanalyses w example_args (example_configuration "optimize")
              (VTable [("circuit", VStr "circuit.cir")])
              (VTable [("output", VStr "optimized.cir")]) example_parameters
              (example_world_reliable _ _ _ _ _ _)
              eq_refl eq_refl eq_refl eq_refl eq_refl eq_refl eq_refl)
    as [Hrun [Hwrite _]].
  split; [|now rewrite Hrun].
  apply Hwrite. repeat split.
Defined.

(** The file named on the command line is missing. *)
Lemma unloadable_configuration_is_uncaught_witness :
  tools_module example_missing_file
  = ([OsSystem ""; ParseArgs; PrintLine "JoSIM Tools {}" [VStr "1.0"]; TomlLoad "circuit.toml"],
     Raise (FileNotFoundError "circuit.toml")) /\
  exit_status (outcome (tools_module example_missing_file)) = 1.
Proof.
  destruct (proj2 (unloadable_configuration_is_uncaught example_missing_file example_args
                     eq_refl) eq_refl)
    as [e [_ [_ [Hrun [Hstatus _]]]]].
  split; [reflexivity | exact Hstatus].
Defined.

(** The example configuration has no [margin] table. *)
Lemma margin_table_optional_others_required_witness :
  let w := example_run "margin" in
  dict_get (example_configuration "margin") "margin" = None /\
  In (Call (MarginAnalysisConfiguration_from_dict (VTable []))) (trace (tools_module w)) /\
  outcome (tools_module w) = Ok tt.
Proof.
  intros w.
  destruct (margin_table_optional_others_required w example_args
              (example_configuration "margin") "margin"
              (example_world_reliable _ _ _ _ _ _) eq_refl eq_refl eq_refl eq_refl)
    as [Hoptional _].
  destruct (Hoptional eq_refl (VTable [("circuit", VStr "circuit.cir")])
              example_parameters eq_refl eq_refl) as [Hmargin _].
  split; [reflexivity|]. rewrite (Hmargin eq_refl).
  split; [|reflexivity].
  cbn [trace fst]. apply in_or_app. right. do 3 right. now left.
Defined.

(** * Further properties of the driver *)

(** ** Calls that fail, calls that return *)

Lemma invoke_returns {A : Type} (w : World) (c : call) (r : A) :
  fails w c = None -> invoke w c r = ([Call c], Ok r).
Proof. intros H. unfold invoke. now rewrite bind_emit, H. Qed.

Lemma invoke_fails {A : Type} (w : World) (c : call) (r : A) (msg : string) :
  fails w c = Some msg -> invoke w c r = ([Call c], Raise (ComponentError msg)).
Proof. intros H. unfold invoke. now rewrite bind_emit, H. Qed.

Lemma bind_invoke_returns {A B : Type} (w : World) (c : call) (a : A) (f : A -> M B) t r :
  fails w c = None -> f a = (t, r) -> bind (invoke w c a) f = (Call c :: t, r).
Proof. intros Hc H. rewrite (invoke_returns w c a Hc). unfold bind. now rewrite H. Qed.

(** ** The loops over the parameters *)

Lemma parameters_loop_failure {C : Type} (w : World) (mk : value -> call)
  (from_dict : value -> C) (pre suf : dict value) (k : string) (item : value)
  (msg : string) (acc : dict C) :
  (forall p, In p pre -> fails w (mk (snd p)) = None) ->
  fails w (mk item) = Some msg ->
  for_each (pre ++ (k, item) :: suf)
    (fun '(key, item) acc => c <- invoke w (mk item) (from_dict item) ;; ret (dict_set acc key c))
    acc
  = (from_dict_events mk (pre ++ [(k, item)]), Raise (ComponentError msg)).
Proof.
  intros Hpre Hitem. revert acc.
  induction pre as [|[k0 item0] pre IH]; intros acc; simpl.
  - apply bind_Raise, bind_Raise. now apply invoke_fails.
  - apply (bind_app_eq _ _ [Call (mk item0)] (dict_set acc k0 (from_dict item0))).
    + apply bind_invoke_returns; [|reflexivity].
      apply (Hpre (k0, item0)). now left.
    + apply IH. intros p Hp. apply Hpre. now right.
Qed.

(** X1.  The loop that converts the parameter tables (lines 86-87, and the
    same loop at 117-118, 147-148 and 179-180) stops at the first table
    that [from_dict] rejects: the tables before it are converted in order,
    the ones after it are never looked at, and the exception leaves the
    loop. *)
Theorem parameters_loop_stops_at_first_failure {C : Type} (w : World)
  (mk : value -> call) (from_dict : value -> C) (pre suf : dict value)
  (k : string) (item : value) (msg : string) :
  (forall p, In p pre -> fails w (mk (snd p)) = None) ->
  fails w (mk item) = Some msg ->
  parameters_from_dict (fun item => invoke w (mk item) (from_dict item))
    (pre ++ (k, item) :: suf)
  = (from_dict_events mk (pre ++ [(k, item)]), Raise (ComponentError msg)).
Proof. intros Hpre Hitem. now apply parameters_loop_failure. Qed.

(** ** The index of a key *)

Lemma enumerate_from_index (pre l : list string) (i : nat) (key : string) :
  NoDup (pre ++ l) ->
  In (i, key) (enumerate_from (List.length pre) l) ->
  list_index (pre ++ l) key = Some i.
Proof.
  revert pre. induction l as [|x l IH]; simpl; intros pre Hnd Hin; [destruct Hin|].
  destruct Hin as [[= <- <-]|Hin].
  - apply list_index_fresh_app. apply NoDup_remove_2 in Hnd.
    intros Hx. apply Hnd, in_or_app. now left.
  - replace (pre ++ x :: l) with ((pre ++ [x]) ++ l) by now rewrite <- app_assoc.
    apply IH.
    + now rewrite <- app_assoc.
    + now rewrite length_app, Nat.add_1_r.
Qed.

(** X2.  For distinct keys, [keys_.index(key)] at line 190 recomputes the
    index that [enumerate] already gave at line 189: the assignment changes
    nothing. *)
Theorem enumerate_index_is_list_index (keys_ : list string) (i : nat) (key : string) :
  NoDup keys_ -> In (i, key) (enumerate keys_) -> list_index keys_ key = Some i.
Proof. intros Hnd Hin. now apply (enumerate_from_index [] keys_). Qed.

(** ** Re-association and the length of the point *)

Lemma reassociate_loop_short (keys_ pre suf : list string) (optimized_point : list float) :
  keys_ = pre ++ suf -> NoDup keys_ ->
  (List.length pre <= List.length optimized_point)%nat ->
  (List.length optimized_point < List.length keys_)%nat ->
  for_each (enumerate_from (List.length pre) suf)
    (fun '(_, key) acc =>
       index <- index_of keys_ key ;;
       x <- list_getitem optimized_point index ;;
       ret (dict_set acc key x))
    (combine pre optimized_point)
  = ([], Raise IndexError).
Proof.
  revert pre. induction suf as [|k suf IH]; intros pre Hkeys Hnd Hpre Hlen.
  - rewrite app_nil_r in Hkeys. subst. lia.
  - assert (Hfresh : ~ In k pre).
    { subst keys_. apply NoDup_remove_2 in Hnd. intros Hin. apply Hnd, in_or_app. now left. }
    simpl. unfold index_of. rewrite Hkeys at 1.
    rewrite (list_index_fresh_app _ _ _ Hfresh), bind_ret. unfold list_getitem.
    destruct (nth_error optimized_point (List.length pre)) as [x|] eqn:Hx.
    + assert (Hlt : (List.length pre < List.length optimized_point)%nat)
        by (apply nth_error_Some; congruence).
      rewrite !bind_ret.
      rewrite dict_set_fresh by (rewrite dict_keys_combine; [exact Hfresh | lia]).
      rewrite <- (combine_snoc _ _ _ _ Hx).
      replace (S (List.length pre)) with (List.length (pre ++ [k]))
        by (rewrite length_app; simpl; lia).
      apply IH; [now rewrite <- app_assoc | assumption | | assumption].
      rewrite length_app. simpl. lia.
    + reflexivity.
Qed.

Lemma reassociate_too_short (keys_ : list string) (optimized_point : list float) :
  NoDup keys_ ->
  (List.length optimized_point < List.length keys_)%nat ->
  reassociate keys_ optimized_point = ([], Raise IndexError).
Proof.
  intros Hnd Hlt.
  apply (reassociate_loop_short keys_ [] keys_); simpl; [reflexivity | assumption | lia | lia].
Qed.

(** X3.  With distinct keys, the re-association of lines 188-191 depends on
    the length of the optimized point only: a point with at least one entry
    per key is zipped with the keys, and its surplus entries are ignored
    without notice; a point with fewer entries raises [IndexError]. *)
Theorem reassociate_by_length (keys_ : list string) (optimized_point : list float) :
  NoDup keys_ ->
  reassociate keys_ optimized_point
  = ([],
     if (List.length keys_ <=? List.length optimized_point)%nat
     then Ok (combine keys_ optimized_point)
     else Raise IndexError).
Proof.
  intros Hnd.
  destruct (Nat.leb_spec (List.length keys_) (List.length optimized_point)) as [Hle|Hlt].
  - now apply reassociate_aligned.
  - now apply reassociate_too_short.
Qed.

(** ** More rules of the program logic *)

Lemma triple_exceptions {A : Type} (P : event -> Prop) (E E' : exn -> Prop)
  (m : M A) (Q : A -> Prop) :
  triple P E m Q -> (forall e, E e -> E' e) -> triple P E' m Q.
Proof.
  intros [Ht Ho] HE. split; [exact Ht|].
  destruct (outcome m); [exact Ho | now apply HE].
Qed.

Section MoreRules.

Variable P : event -> Prop.
Variable E : exn -> Prop.
Variable w : World.

Lemma triple_parse_args_exit :
  P ParseArgs -> (forall code, command_line w = inr code -> E (SystemExit code)) ->
  triple P E (parse_args w) (fun args => command_line w = inl args).
Proof.
  intros HP HE. unfold parse_args.
  apply triple_bind with (R := fun _ => True); [now apply triple_emit|].
  intros _ _. destruct (command_line w) as [args|code].
  - now apply triple_ret.
  - now apply triple_raise, HE.
Qed.

Lemma triple_validate_exit (cfg : dict value) :
  P (SchemaValidate cfg) ->
  P (PrintLine "ERROR: configuration file validation failed" []) ->
  (forall message, P (PrintLine "       reason: {}" [VStr message])) ->
  (forall message, validation_error w cfg = Some message -> E (SystemExit (-1))) ->
  triple P E (validate w cfg) (fun _ => validation_error w cfg = None).
Proof.
  intros HP1 HP2 HP3 HE.
  destruct (validation_error w cfg) as [message|] eqn:Hv.
  - rewrite (validate_invalid _ _ _ Hv). split; [|now apply (HE message)].
    repeat constructor; auto.
  - rewrite (validate_valid _ _ Hv). split; [|reflexivity].
    repeat constructor; auto.
Qed.

(** The dictionary filled by the loop, when every [from_dict] is a call
    into the package. *)
Lemma triple_parameters_exact {C : Type} (mk : value -> call) (from_dict : value -> C)
  (its : dict value) :
  (forall item, P (Call (mk item))) -> (forall msg, E (ComponentError msg)) ->
  triple P E (parameters_from_dict (fun item => invoke w (mk item) (from_dict item)) its)
    (fun d => d = dict_of_items from_dict its).
Proof.
  intros HP HE. unfold parameters_from_dict, dict_of_items.
  pose (I := fun (l : dict value) (acc : dict C) =>
               fold_left (fun acc '(key, item) => dict_set acc key (from_dict item)) l acc
               = fold_left (fun acc '(key, item) => dict_set acc key (from_dict item)) its []).
  apply triple_weaken with (R := I []).
  - apply (triple_for_each P E _ I); [reflexivity|].
    intros [key item] l' acc HI. unfold I in *.
    apply triple_bind with (R := fun c => c = from_dict item).
    + now apply triple_invoke.
    + intros c ->. now apply triple_ret.
  - intros d Hd. exact Hd.
Qed.

Lemma list_index_In (l : list string) (x : string) :
  In x l -> exists i, list_index l x = Some i.
Proof.
  induction l as [|y l IH]; simpl; [tauto|]. intros Hin.
  destruct (String.eqb_spec y x) as [->|Hne]; [now exists O|].
  destruct Hin as [->|Hin]; [contradiction|].
  destruct (IH Hin) as [i ->]. now exists (S i).
Qed.

(** The re-association can only fail on the index into the point: every
    key is found in [keys_]. *)
Lemma triple_reassociate_index (keys_ : list string) (optimized_point : list float) :
  E IndexError ->
  triple P E (reassociate keys_ optimized_point)
    (fun named => dict_keys named = key_order keys_).
Proof.
  intros HE. unfold reassociate.
  pose (I := fun (l : list (nat * string)) (acc : dict float) =>
               fold_left add_key (map snd l) (dict_keys acc) = key_order keys_
               /\ forall p, In p l -> In (snd p) keys_).
  apply triple_weaken with (R := I []).
  - apply (triple_for_each P E _ I).
    + unfold I, enumerate. rewrite map_snd_enumerate_from. split; [reflexivity|].
      intros p Hp. rewrite <- (map_snd_enumerate_from keys_ O). now apply in_map.
    + intros [i key] l' acc [HI Hin]. unfold I.
      destruct (list_index_In keys_ key (Hin (i, key) (or_introl eq_refl))) as [j Hj].
      unfold index_of. rewrite Hj, bind_ret.
      apply triple_bind with (R := fun _ => True).
      { unfold list_getitem. destruct (nth_error optimized_point j);
          [now apply triple_ret | now apply triple_raise]. }
      intros x _. apply triple_ret. split.
      * now rewrite dict_keys_set.
      * intros p Hp. apply Hin. now right.
  - intros d [Hd _]. exact Hd.
Qed.

(** The dispatch, from the four modes. *)
Lemma triple_dispatch (args : Args) (cfg : dict value) (Q : unit -> Prop) :
  E (KeyError "mode") ->
  E (AssertionError "INTERNAL ERROR: UNREACHABLE CODE in tools.py") ->
  (dict_get cfg "mode" = Some (VStr "verify") -> triple P E (run_verify w cfg) Q) ->
  (dict_get cfg "mode" = Some (VStr "margin") -> triple P E (run_margin w cfg) Q) ->
  (dict_get cfg "mode" = Some (VStr "yield") -> triple P E (run_yield w cfg) Q) ->
  (dict_get cfg "mode" = Some (VStr "optimize") -> triple P E (run_optimize w args cfg) Q) ->
  triple P E (dispatch w args cfg) Q.
Proof.
  intros HE1 HE2 Hverify Hmargin Hyield Hoptimize. unfold dispatch, getitem.
  destruct (dict_get cfg "mode") as [mode|]; [|now apply triple_raise].
  rewrite bind_ret. unfold value_eq_str.
  destruct mode as [mode| | | | |]; try now apply triple_raise.
  destruct (String.eqb_spec mode "verify") as [->|_]; [now apply Hverify|].
  destruct (String.eqb_spec mode "margin") as [->|_]; [now apply Hmargin|].
  destruct (String.eqb_spec mode "yield") as [->|_]; [now apply Hyield|].
  destruct (String.eqb_spec mode "optimize") as [->|_]; [now apply Hoptimize|].
  now apply triple_raise.
Qed.

(** The whole run, from the dispatch, for a property of events that holds
    of every event other than a call into the package. *)
Lemma triple_tools_module (Q : unit -> Prop) :
  (forall ev, (forall c, ev <> Call c) -> P ev) ->
  (forall code, command_line w = inr code -> E (SystemExit code)) ->
  (forall args, command_line w = inl args -> E (load_error w (configuration args))) ->
  (forall cfg message,
     loaded_configuration w = Some cfg -> validation_error w cfg = Some message ->
     E (SystemExit (-1))) ->
  (forall args cfg,
     command_line w = inl args -> loaded_configuration w = Some cfg ->
     validation_error w cfg = None ->
     triple P E (dispatch w args cfg) Q) ->
  triple P E (tools_module w) Q.
Proof.
  intros HP Hexit Hfile Hinvalid Hdispatch.
  assert (HP' : forall ev, match ev with Call _ => False | _ => True end -> P ev).
  { intros ev Hev. apply HP. intros c ->. exact Hev. }
  unfold tools_module, run.
  apply triple_bind with (R := fun _ => True); [apply triple_emit; [now apply HP' | exact I]|].
  intros _ _.
  eapply triple_bind; [apply triple_parse_args_exit; [now apply HP' | exact Hexit]|].
  intros args Hargs.
  apply triple_bind with (R := fun _ => True); [apply triple_print; [now apply HP' | exact I]|].
  intros _ _.
  apply triple_bind with (R := fun _ => True).
  { destruct (verbose args); [apply triple_print; [now apply HP' | exact I] | now apply triple_ret]. }
  intros _ _.
  eapply triple_bind; [apply triple_toml_load; [now apply HP' | now apply Hfile]|].
  intros cfg [Hread [text [Htext Hloads]]].
  assert (Hcfg : loaded_configuration w = Some cfg).
  { unfold loaded_configuration. now rewrite Hargs, Hread, Htext. }
  eapply triple_bind.
  { apply triple_validate_exit; try (intros; now apply HP').
    intros message Hm. now apply (Hinvalid cfg message). }
  intros ? Hvalid. now apply Hdispatch.
Qed.

End MoreRules.

(** ** How a run can end *)

Ltac step_exact :=
  lazymatch goal with
  | |- triple _ _ (bind (parameters_from_dict _ _) _) _ =>
      eapply triple_bind; [apply triple_parameters_exact | intros ? ->]
  | |- triple _ _ (bind (reassociate _ _) _) _ =>
      eapply triple_bind; [apply triple_reassociate_index | intros ? ?]
  | |- _ => step
  end.

Ltac side_auto :=
  solve [ exact I | intros; exact I | reflexivity | intros; reflexivity
        | simpl; auto 10 | intros; simpl; auto 10 ].

Section Endings.

Variable w : World.

Lemma verify_exceptions (cfg : dict value) :
  triple any_event driver_exception (run_verify w cfg) (fun _ => True).
Proof.
  unfold run_verify. repeat (step_exact; try side_auto).
  match goal with |- context [passed ?o] => destruct (passed o) end;
    repeat (step_exact; try side_auto).
  match goal with |- context [failure_time ?o] => destruct (failure_time o) end;
    repeat (step_exact; try side_auto);
    match goal with |- context [failure_point ?o] => destruct (failure_point o) end;
    repeat (step_exact; try side_auto).
Qed.

Lemma margin_exceptions (cfg : dict value) :
  triple any_event driver_exception (run_margin w cfg) (fun _ => True).
Proof.
  unfold run_margin, margin_parameters_of. repeat (step_exact; try side_auto).
Qed.

Lemma yield_exceptions (cfg : dict value) :
  triple any_event driver_exception (run_yield w cfg) (fun _ => True).
Proof.
  unfold run_yield, yield_parameters_of. repeat (step_exact; try side_auto).
Qed.

Lemma optimize_exceptions (args : Args) (cfg : dict value) :
  triple any_event driver_exception (run_optimize w args cfg) (fun _ => True).
Proof.
  unfold run_optimize, optimize_parameters_of, margin_parameters_of.
  repeat (step_exact; try side_auto).
  match goal with
  | |- context [OptimizeConfiguration.output ?oc] =>
      destruct (OptimizeConfiguration.output oc)
  end;
    repeat (step_exact; try side_auto).
Qed.

Lemma dispatch_exceptions (args : Args) (cfg : dict value) :
  triple any_event driver_exception (dispatch w args cfg) (fun _ => True).
Proof.
  apply triple_dispatch; intros; try side_auto.
  - apply verify_exceptions.
  - apply margin_exceptions.
  - apply yield_exceptions.
  - apply optimize_exceptions.
Qed.

Lemma driver_exception_run (e : exn) : driver_exception e -> run_exception w e.
Proof. destruct e; simpl; tauto. Qed.

Lemma tools_module_exceptions :
  triple any_event (run_exception w) (tools_module w) (fun _ => True).
Proof.
  apply triple_tools_module.
  - intros; exact I.
  - intros code Hcode. now left.
  - intros args Hargs.
    destruct (load_error w (configuration args)) eqn:He; simpl;
      try (now exists args);
      try (unfold load_error in He;
           destruct (read_error w (configuration args)) as [[]|];
           [..|destruct (file_text w (configuration args))]; discriminate He).
  - intros cfg message Hcfg Hm. right. split; [reflexivity|]. now exists cfg, message.
  - intros args cfg _ _ _.
    apply triple_exceptions with (E := driver_exception);
      [apply dispatch_exceptions | apply driver_exception_run].
Qed.

Lemma tools_module_parser_exit (code : Z) :
  command_line w = inr code ->
  tools_module w = ([OsSystem ""; ParseArgs], Raise (SystemExit code)).
Proof.
  intros Hcode. unfold tools_module, run.
  apply bind_emit_eq, bind_Raise. unfold parse_args.
  apply bind_emit_eq. now rewrite Hcode.
Qed.

End Endings.

(** X4.  Whatever the world does, a run ends normally or in one of these
    exceptions: the [SystemExit] of the argument parser or of the
    validation handler; the exception that [toml_load] raises for the
    configuration path, which is [FileNotFoundError], [IsADirectoryError],
    [PermissionError], another [OSError], [UnicodeDecodeError] or the TOML
    syntax error, as the file system and the file decide; [KeyError] for
    one of the keys mode, verify, yield, optimize and parameters (never
    margin); [AttributeError] for [items]; [IndexError]; a failure inside
    the package; or the assertion of the last branch.  In particular the
    schema validation error never leaves [run], and the lookup
    [keys_.index(key)] never raises. *)
Theorem run_raises_only (w : World) :
  match outcome (tools_module w) with
  | Ok _ => True
  | Raise e => run_exception w e
  end.
Proof. exact (proj2 (tools_module_exceptions w)). Qed.

(** X15.  Whatever the calls into the package do, the dispatch of lines
    58-204 on a loaded configuration ends normally or in one of these
    exceptions: [KeyError] for one of the keys mode, verify, yield,
    optimize and parameters (never margin), [AttributeError] for [items],
    [IndexError] from the optimized point, an exception raised inside a
    call into the package, or the assertion of the last branch.  No mode
    exits, and no mode raises an error of the file system. *)
Theorem dispatch_raises_only (w : World) (args : Args) (cfg : dict value) :
  match outcome (dispatch w args cfg) with
  | Ok _ => True
  | Raise e => driver_exception e
  end.
Proof. exact (proj2 (dispatch_exceptions w args cfg)). Qed.

(** X5.  A run ends in [SystemExit] exactly when the argument parser exits,
    with the parser's code, or when the validation of the loaded
    configuration fails, with code -1: once the validation has passed, no
    mode ever exits. *)
Theorem exits_only_from_parser_or_validation (w : World) (code : Z) :
  outcome (tools_module w) = Raise (SystemExit code)
  <-> command_line w = inr code \/ (code = -1 /\ validation_fails w).
Proof.
  split.
  - intros Hout. pose proof (proj2 (tools_module_exceptions w)) as Hcases.
    rewrite Hout in Hcases. exact Hcases.
  - intros [Hcode|[-> [cfg [message [Hcfg Hm]]]]].
    + now rewrite (tools_module_parser_exit w code Hcode).
    + assert (Hargs : exists args, command_line w = inl args).
      { unfold loaded_configuration in Hcfg.
        destruct (command_line w) as [args|]; [now exists args | discriminate]. }
      destruct Hargs as [args Hargs].
      now rewrite (tools_module_invalid w args Hargs cfg Hcfg message Hm).
Qed.

(** ** Normal returns and the tables of the mode *)

Section NormalReturn.

Variable w : World.
Variable cfg : dict value.

(** Closes a goal on [tables_present] from the lookups in the context. *)
Ltac tables :=
  cbv beta in *; subst; unfold tables_present;
  repeat match goal with
         | H : dict_get cfg _ = Some _ |- _ => rewrite H; clear H
         end;
  reflexivity.

Lemma verify_returns_with_tables :
  triple any_event any_exception (run_verify w cfg)
    (fun _ => tables_present cfg "verify" = true).
Proof.
  unfold run_verify. repeat (step_exact; try side_auto).
  match goal with |- context [passed ?o] => destruct (passed o) end;
    repeat (step_exact; try side_auto); try tables.
  match goal with |- context [failure_time ?o] => destruct (failure_time o) end;
    repeat (step_exact; try side_auto);
    match goal with |- context [failure_point ?o] => destruct (failure_point o) end;
    repeat (step_exact; try side_auto); tables.
Qed.

Lemma margin_returns_with_tables :
  triple any_event any_exception (run_margin w cfg)
    (fun _ => tables_present cfg "margin" = true).
Proof.
  unfold run_margin, margin_parameters_of. repeat (step_exact; try side_auto). tables.
Qed.

Lemma yield_returns_with_tables :
  triple any_event any_exception (run_yield w cfg)
    (fun _ => tables_present cfg "yield" = true).
Proof.
  unfold run_yield, yield_parameters_of. repeat (step_exact; try side_auto). tables.
Qed.

Lemma optimize_returns_with_tables (args : Args) :
  triple any_event any_exception (run_optimize w args cfg)
    (fun _ => tables_present cfg "optimize" = true).
Proof.
  unfold run_optimize, optimize_parameters_of, margin_parameters_of.
  repeat (step_exact; try side_auto).
  match goal with
  | |- context [OptimizeConfiguration.output ?oc] =>
      destruct (OptimizeConfiguration.output oc)
  end;
    repeat (step_exact; try side_auto); tables.
Qed.

End NormalReturn.

Lemma tools_module_returns_with_tables (w : World) :
  triple any_event any_exception (tools_module w)
    (fun _ =>
       exists args cfg mode,
         command_line w = inl args /\
         loaded_configuration w = Some cfg /\
         validation_error w cfg = None /\
         dict_get cfg "mode" = Some (VStr mode) /\
         In mode MODES /\
         tables_present cfg mode = true).
Proof.
  apply triple_tools_module; try side_auto.
  intros args cfg Hargs Hcfg Hvalid.
  apply triple_dispatch; try side_auto; intros Hmode.
  - apply triple_weaken with (R := fun _ => tables_present cfg "verify" = true);
      [apply verify_returns_with_tables|].
    intros _ Ht. exists args, cfg, "verify". simpl. auto 10.
  - apply triple_weaken with (R := fun _ => tables_present cfg "margin" = true);
      [apply margin_returns_with_tables|].
    intros _ Ht. exists args, cfg, "margin". simpl. auto 10.
  - apply triple_weaken with (R := fun _ => tables_present cfg "yield" = true);
      [apply yield_returns_with_tables|].
    intros _ Ht. exists args, cfg, "yield". simpl. auto 10.
  - apply triple_weaken with (R := fun _ => tables_present cfg "optimize" = true);
      [apply optimize_returns_with_tables|].
    intros _ Ht. exists args, cfg, "optimize". simpl. auto 10.
Qed.

(** X6.  A run returns normally only if the arguments parsed, the
    configuration loaded and passed the validation, its mode is one of the
    four, and the tables that the mode indexes are there ([verify]; a table
    [parameters] except in verify mode; [yield] in yield mode; [optimize]
    in optimize mode).  This holds in every world, and is the converse of
    the exit status zero of completed analyses. *)
Theorem normal_return_needs_tables (w : World) :
  outcome (tools_module w) = Ok tt ->
  exists args cfg mode,
    command_line w = inl args /\
    loaded_configuration w = Some cfg /\
    validation_error w cfg = None /\
    dict_get cfg "mode" = Some (VStr mode) /\
    In mode MODES /\
    tables_present cfg mode = true.
Proof.
  intros Hout. pose proof (proj2 (tools_module_returns_with_tables w)) as Hpost.
  now rewrite Hout in Hpost.
Qed.

(** ** A run without a table of parameters *)

Section NoParameters.

Variable w : World.
Variable cfg : dict value.
Hypothesis no_table : is_table (dict_get cfg "parameters") = false.

(** Ends a branch in which the parameters were found to be a table. *)
Ltac no_parameters :=
  cbv beta in *; subst;
  match goal with
  | H : dict_get cfg "parameters" = Some (VTable _) |- _ =>
      rewrite H in no_table; discriminate no_table
  end.

Lemma margin_without_parameters :
  triple only_configuration_calls any_exception (run_margin w cfg) (fun _ => False).
Proof.
  unfold run_margin, margin_parameters_of.
  do 6 (step_exact; try side_auto). no_parameters.
Qed.

Lemma yield_without_parameters :
  triple only_configuration_calls any_exception (run_yield w cfg) (fun _ => False).
Proof.
  unfold run_yield, yield_parameters_of.
  do 7 (step_exact; try side_auto). no_parameters.
Qed.

Lemma optimize_without_parameters (args : Args) :
  triple only_configuration_calls any_exception (run_optimize w args cfg) (fun _ => False).
Proof.
  unfold run_optimize, optimize_parameters_of.
  do 8 (step_exact; try side_auto). no_parameters.
Qed.

End NoParameters.

(** X7.  In margin, yield and optimize mode, when the configuration has no
    [parameters] entry or the entry is not a table, the run does not
    return, and it is over before any component is constructed: the only
    calls into the package are the [from_dict] calls that build
    configuration objects.  This holds in every world. *)
Theorem missing_parameters_stop_before_components (w : World) (args : Args)
  (cfg : dict value) (mode : string) :
  command_line w = inl args ->
  loaded_configuration w = Some cfg ->
  dict_get cfg "mode" = Some (VStr mode) ->
  In mode ["margin"; "yield"; "optimize"] ->
  is_table (dict_get cfg "parameters") = false ->
  Forall only_configuration_calls (trace (tools_module w)) /\
  outcome (tools_module w) <> Ok tt.
Proof.
  intros Hargs Hcfg Hmode Hin Hno.
  assert (Htriple : triple only_configuration_calls any_exception (tools_module w)
                      (fun _ => False)).
  { apply triple_tools_module; try side_auto.
    - intros ev Hev. destruct ev; try exact I. now destruct (Hev c).
    - intros args' cfg' _ Hcfg' _.
      assert (cfg' = cfg) by congruence. subst cfg'.
      apply triple_dispatch; try side_auto; intros Hmode';
        rewrite Hmode in Hmode'; injection Hmode' as ->.
      + simpl in Hin. intuition discriminate.
      + now apply margin_without_parameters.
      + now apply yield_without_parameters.
      + now apply optimize_without_parameters. }
  destruct Htriple as [Hevents Hout]. split; [exact Hevents|].
  intros Hok. now rewrite Hok in Hout.
Qed.

(** ** When the netlist is written *)

Section Writes.

Variable w : World.

Lemma verify_never_writes (cfg : dict value) :
  triple (write_policy w) any_exception (run_verify w cfg) (fun _ => True).
Proof.
  unfold run_verify. repeat (step_exact; try side_auto).
  match goal with |- context [passed ?o] => destruct (passed o) end;
    repeat (step_exact; try side_auto).
  match goal with |- context [failure_time ?o] => destruct (failure_time o) end;
    repeat (step_exact; try side_auto);
    match goal with |- context [failure_point ?o] => destruct (failure_point o) end;
    repeat (step_exact; try side_auto).
Qed.

Lemma margin_never_writes (cfg : dict value) :
  triple (write_policy w) any_exception (run_margin w cfg) (fun _ => True).
Proof.
  unfold run_margin, margin_parameters_of. repeat (step_exact; try side_auto).
Qed.

Lemma yield_never_writes (cfg : dict value) :
  triple (write_policy w) any_exception (run_yield w cfg) (fun _ => True).
Proof.
  unfold run_yield, yield_parameters_of. repeat (step_exact; try side_auto).
Qed.

Lemma optimize_writes_as_configured (args : Args) (cfg : dict value) :
  command_line w = inl args ->
  loaded_configuration w = Some cfg ->
  dict_get cfg "mode" = Some (VStr "optimize") ->
  triple (write_policy w) any_exception (run_optimize w args cfg) (fun _ => True).
Proof.
  intros Hargs Hcfg Hmode.
  unfold run_optimize, optimize_parameters_of, margin_parameters_of.
  repeat (step_exact; try side_auto); cbv beta in *; subst.
  match goal with
  | |- context [OptimizeConfiguration.output ?oc] =>
      destruct (OptimizeConfiguration.output oc) as [output_file|] eqn:Hout
  end;
    repeat (step_exact; try side_auto); cbv beta in *; subst.
  match goal with
  | Hd : dict_get cfg "verify" = Some ?d, Ho : dict_get cfg "optimize" = Some ?o,
    Hps : dict_get cfg "parameters" = Some (VTable ?its) |- _ =>
      exists args, cfg, d, o, its
  end.
  repeat split; assumption.
Qed.

Lemma tools_module_write_policy :
  triple (write_policy w) any_exception (tools_module w) (fun _ => True).
Proof.
  apply triple_tools_module; try side_auto.
  - intros ev Hev. destruct ev; try exact I. now destruct (Hev c).
  - intros args cfg Hargs Hcfg _.
    apply triple_dispatch; try side_auto; intros Hmode.
    + apply verify_never_writes.
    + apply margin_never_writes.
    + apply yield_never_writes.
    + now apply optimize_writes_as_configured.
Qed.

End Writes.

(** X8.  In every run, whatever fails, the netlist writer is called only in
    optimize mode, only with the output path of the optimize configuration,
    on the writer of the run's verify configuration, and only with the
    point that the optimizer returned for the nominal values: verify,
    margin and yield mode never write a file, and optimize mode never
    writes one that was not asked for. *)
Theorem netlist_written_only_as_configured (w : World) :
  Forall (write_policy w) (trace (tools_module w)).
Proof. exact (proj1 (tools_module_write_policy w)). Qed.

(** ** What a mode does not depend on *)

Lemma dispatch_with_verbose (w : World) (flag : bool) (args args' : Args) (cfg : dict value) :
  dict_get cfg "mode" <> Some (VStr "optimize") ->
  dispatch (with_verbose w flag) args' cfg = dispatch w args cfg.
Proof.
  intros Hmode. unfold dispatch, getitem.
  destruct (dict_get cfg "mode") as [mode|]; [|reflexivity].
  rewrite !bind_ret. destruct mode as [mode| | | | |]; try reflexivity.
  unfold value_eq_str.
  destruct (String.eqb mode "verify"); [reflexivity|].
  destruct (String.eqb mode "margin"); [reflexivity|].
  destruct (String.eqb mode "yield"); [reflexivity|].
  destruct (String.eqb_spec mode "optimize") as [->|_]; [congruence | reflexivity].
Qed.

(** X9.  Outside optimize mode the flag [--verbose] has one effect only:
    the line Verbose mode enabled, printed right after the banner.  The
    rest of the run, up to its result, is the same with and without the
    flag, whatever happens in it (in optimize mode the flag is also passed
    to the optimizer). *)
Theorem verbose_only_adds_a_line (w : World) (args : Args) :
  command_line w = inl args ->
  (forall cfg, loaded_configuration w = Some cfg ->
     dict_get cfg "mode" <> Some (VStr "optimize")) ->
  exists rest r,
    tools_module (with_verbose w false)
    = ([OsSystem ""; ParseArgs; PrintLine "JoSIM Tools {}" [VStr (__version__ w)]] ++ rest, r) /\
    tools_module (with_verbose w true)
    = ([OsSystem ""; ParseArgs; PrintLine "JoSIM Tools {}" [VStr (__version__ w)]]
       ++ PrintLine "Verbose mode enabled" [] :: rest, r).
Proof.
  intros Hargs Hmode.
  assert (Hcommand : forall flag,
             command_line (with_verbose w flag)
             = inl {| configuration := configuration args; verbose := flag |}).
  { intros flag. simpl. now rewrite Hargs. }
  assert (Hloaded : forall flag,
             loaded_configuration (with_verbose w flag) = loaded_configuration w).
  { intros flag. unfold loaded_configuration. rewrite Hcommand, Hargs. reflexivity. }
  destruct (loaded_configuration w) as [cfg|] eqn:Hcfg.
  - exists (TomlLoad (configuration args) :: trace (validate w cfg ;; dispatch w args cfg)),
      (outcome (validate w cfg ;; dispatch w args cfg)).
    split.
    + rewrite (tools_module_loaded (with_verbose w false) _ (Hcommand false) cfg
                 (trace (validate w cfg ;; dispatch w args cfg))
                 (outcome (validate w cfg ;; dispatch w args cfg))); [reflexivity | | ].
      * now rewrite Hloaded.
      * rewrite (dispatch_with_verbose w false args _ cfg (Hmode cfg eq_refl)).
        apply surjective_run.
    + rewrite (tools_module_loaded (with_verbose w true) _ (Hcommand true) cfg
                 (trace (validate w cfg ;; dispatch w args cfg))
                 (outcome (validate w cfg ;; dispatch w args cfg))); [reflexivity | | ].
      * now rewrite Hloaded.
      * rewrite (dispatch_with_verbose w true args _ cfg (Hmode cfg eq_refl)).
        apply surjective_run.
  - eexists [TomlLoad (configuration args)], _. split.
    + rewrite (tools_module_not_loaded (with_verbose w false) _ (Hcommand false));
        [reflexivity | now rewrite Hloaded].
    + rewrite (tools_module_not_loaded (with_verbose w true) _ (Hcommand true));
        [reflexivity | now rewrite Hloaded].
Qed.

(** X10.  A mode reads the tables of its own and nothing else of the
    configuration: verify mode reads [verify]; margin mode [verify],
    [margin] and [parameters]; yield mode [verify], [yield] and
    [parameters]; optimize mode [verify], [margin], [optimize] and
    [parameters].  Two configurations with the same mode that agree on
    these tables are dispatched to the same events and the same result. *)
Theorem dispatch_reads_only_mode_tables (w : World) (args : Args)
  (cfg1 cfg2 : dict value) (mode : string) :
  dict_get cfg1 "mode" = Some (VStr mode) ->
  dict_get cfg2 "mode" = Some (VStr mode) ->
  (forall k, In k (mode_tables mode) -> dict_get cfg1 k = dict_get cfg2 k) ->
  dispatch w args cfg1 = dispatch w args cfg2.
Proof.
  intros Hmode1 Hmode2 Hagree.
  rewrite (dispatch_mode w args cfg1 mode Hmode1), (dispatch_mode w args cfg2 mode Hmode2).
  unfold mode_tables in Hagree.
  destruct (String.eqb mode "verify").
  { unfold run_verify, getitem. rewrite (Hagree "verify") by (simpl; auto). reflexivity. }
  destruct (String.eqb mode "margin").
  { unfold run_margin, getitem, dict_get_default.
    rewrite (Hagree "verify"), (Hagree "margin"), (Hagree "parameters") by (simpl; auto).
    reflexivity. }
  destruct (String.eqb mode "yield").
  { unfold run_yield, getitem.
    rewrite (Hagree "verify"), (Hagree "yield"), (Hagree "parameters") by (simpl; auto).
    reflexivity. }
  destruct (String.eqb mode "optimize"); [|reflexivity].
  unfold run_optimize, getitem, dict_get_default.
  rewrite (Hagree "verify"), (Hagree "margin"), (Hagree "optimize"), (Hagree "parameters")
    by (simpl; auto).
  reflexivity.
Qed.

(** ** The vectors handed to the analyses *)

Lemma dict_of_items_distinct {C : Type} (from_dict : value -> C) (its : dict value) :
  NoDup (dict_keys its) ->
  dict_of_items from_dict its = map (fun '(key, item) => (key, from_dict item)) its.
Proof. intros Hnd. unfold dict_of_items. now rewrite fold_dict_set_fresh. Qed.

Lemma margin_nominals_of_items (w : World) (its : dict value) :
  NoDup (dict_keys its) ->
  margin_nominals (dict_of_items (margin_parameter_of w) its)
  = map (fun '(name, item) =>
           (name, MarginParameterConfiguration.nominal (margin_parameter_of w item))) its.
Proof.
  intros Hnd. rewrite (dict_of_items_distinct _ _ Hnd).
  rewrite margin_nominals_unique by now rewrite dict_keys_map.
  rewrite map_map. apply map_ext. now intros [name item].
Qed.

Lemma optimizer_nominals_of_items (w : World) (its : dict value) :
  NoDup (dict_keys its) ->
  optimizer_nominals (dict_of_items (optimizer_parameter_of w) its)
  = map (fun '(name, item) =>
           (name, OptimizerParameterConfiguration.nominal (optimizer_parameter_of w item))) its.
Proof.
  intros Hnd. rewrite (dict_of_items_distinct _ _ Hnd).
  rewrite optimizer_nominals_unique by now rewrite dict_keys_map.
  rewrite map_map. apply map_ext. now intros [name item].
Qed.

Lemma len_dict_of_items {C : Type} (from_dict : value -> C) (its : dict value) :
  NoDup (dict_keys its) -> len (dict_of_items from_dict its) = len its.
Proof.
  intros Hnd. rewrite (dict_of_items_distinct _ _ Hnd). unfold len. now rewrite length_map.
Qed.

(** X11.  In margin mode, with distinct parameter names and a run that
    completes, the margin analysis is called exactly once, right after its
    construction, with the nominal value of every parameter under its
    name, in the order of the configuration, and with
    [min(2 * len(parameters), cpu_count())] workers; the run then ends with
    the report of that very analysis: its result, its two uncertainties and
    the search bounds of the margin configuration. *)
Theorem margin_mode_analyses_nominal_values (w : World) (args : Args)
  (cfg : dict value) (d : value) (its : dict value) :
  Reliable w ->
  command_line w = inl args ->
  loaded_configuration w = Some cfg ->
  validation_error w cfg = None ->
  dict_get cfg "mode" = Some (VStr "margin") ->
  dict_get cfg "verify" = Some d ->
  dict_get cfg "parameters" = Some (VTable its) ->
  NoDup (dict_keys its) ->
  let vc := verify_configuration_of w d in
  let mc := margin_configuration_of w (dict_get_default cfg "margin" (VTable [])) in
  let nominal_values :=
    map (fun '(name, item) =>
           (name, MarginParameterConfiguration.nominal (margin_parameter_of w item))) its in
  let num_threads := Z.min (2 * len its) (cpu_count w) in
  let a := analysed w vc mc nominal_values num_threads in
  exists before,
    trace (tools_module w)
    = before
      ++ [Call (MarginAnalysis_init vc mc);
          Call (MarginAnalysis_analyse vc mc nominal_values num_threads);
          Call (print_margin_analysis_result (analysis_result a)
                  (margin_uncertainty_lower a) (margin_uncertainty_upper a)
                  (MarginAnalysisConfiguration.min_search mc)
                  (MarginAnalysisConfiguration.max_search mc))] /\
    forall vc' mc' parameters n,
      ~ In (Call (MarginAnalysis_analyse vc' mc' parameters n)) before.
Proof.
  intros Hrel Hargs Hcfg Hvalid Hmode Hd Hps Hnd vc mc nominal_values num_threads a.
  pose proof (dispatch_mode w args cfg "margin" Hmode) as Hdispatch.
  simpl in Hdispatch.
  rewrite (run_margin_reliable w Hrel cfg d its Hd Hps) in Hdispatch.
  rewrite (tools_module_valid w args Hargs cfg Hcfg _ _ Hvalid Hdispatch).
  cbn [trace fst]. unfold margin_analysis_trace.
  rewrite (margin_nominals_of_items w its Hnd), (len_dict_of_items _ its Hnd).
  fold vc mc nominal_values num_threads a.
  exists (preamble w args
          ++ [SchemaValidate cfg; PrintLine "=== Margin analysis ===" [];
              Call (VerifyConfiguration_from_dict d);
              Call (MarginAnalysisConfiguration_from_dict
                      (dict_get_default cfg "margin" (VTable [])))]
          ++ from_dict_events MarginParameterConfiguration_from_dict its).
  split.
  - repeat (rewrite <- app_assoc; cbn [app]). reflexivity.
  - intros vc' mc' parameters n Hin. in_trace Hin.
Qed.

(** X12.  In optimize mode, with distinct parameter names and a run that
    completes, the optimizer is called once, after its construction, with
    the nominal value of every parameter under its name, in the order of
    the configuration. *)
Theorem optimizer_is_fed_nominal_values (w : World) (args : Args)
  (cfg : dict value) (d o : value) (its : dict value) :
  Reliable w ->
  command_line w = inl args ->
  loaded_configuration w = Some cfg ->
  validation_error w cfg = None ->
  dict_get cfg "mode" = Some (VStr "optimize") ->
  dict_get cfg "verify" = Some d ->
  dict_get cfg "optimize" = Some o ->
  dict_get cfg "parameters" = Some (VTable its) ->
  NoDup (dict_keys its) ->
  let vc := verify_configuration_of w d in
  let mc := margin_configuration_of w (dict_get_default cfg "margin" (VTable [])) in
  let oc := optimize_configuration_of w o in
  let ops := map (fun '(name, item) => (name, optimizer_parameter_of w item)) its in
  let nominal_values :=
    map (fun '(name, item) =>
           (name, OptimizerParameterConfiguration.nominal (optimizer_parameter_of w item))) its in
  exists before after,
    trace (tools_module w)
    = before
      ++ Call (Optimizer_init vc mc oc ops (verbose args))
      :: Call (Optimizer_optimize vc mc oc ops (verbose args) nominal_values)
      :: after /\
    (forall vc' mc' oc' ops' vb initial,
       ~ In (Call (Optimizer_optimize vc' mc' oc' ops' vb initial)) (before ++ after)).
Proof.
  intros Hrel Hargs Hcfg Hvalid Hmode Hd Ho Hps Hnd vc mc oc ops nominal_values.
  pose proof (dispatch_mode w args cfg "optimize" Hmode) as Hdispatch.
  simpl in Hdispatch.
  rewrite (run_optimize_reliable w Hrel cfg args d o its Hd Ho Hps) in Hdispatch.
  rewrite (tools_module_valid w args Hargs cfg Hcfg _ _ Hvalid Hdispatch).
  cbn [trace fst]. unfold optimize_trace.
  rewrite (optimizer_nominals_of_items w its Hnd), (dict_of_items_distinct _ its Hnd).
  fold vc mc oc ops nominal_values.
  exists (preamble w args
          ++ [SchemaValidate cfg; PrintLine "=== Optimize circuit ===" [];
              Call (VerifyConfiguration_from_dict d);
              Call (MarginAnalysisConfiguration_from_dict
                      (dict_get_default cfg "margin" (VTable [])));
              Call (OptimizeConfiguration_from_dict o)]
          ++ from_dict_events OptimizerParameterConfiguration_from_dict its).
  eexists. split.
  - repeat (rewrite <- app_assoc; cbn [app]). reflexivity.
  - intros vc' mc' oc' ops' vb initial Hin.
    unfold write_events, margin_analysis_trace in Hin. in_trace Hin.
    destruct (OptimizeConfiguration.output (optimize_configuration_of w o)); in_trace Hin.
Qed.

(** ** A verification that passes *)

(** X14.  In verify mode, when the verifier is built and run without
    failure and its outcome is true, the run constructs one verifier, calls
    [verify] once, prints SUCCESS and nothing after it, and returns: the
    failure time and the failure point of the outcome are not looked at,
    whatever they hold. *)
Theorem passed_verification_prints_success_only (w : World) (args : Args)
  (cfg : dict value) (d : value) :
  Reliable w ->
  command_line w = inl args ->
  loaded_configuration w = Some cfg ->
  validation_error w cfg = None ->
  dict_get cfg "mode" = Some (VStr "verify") ->
  dict_get cfg "verify" = Some d ->
  let vc := verify_configuration_of w d in
  passed (verified w vc) = true ->
  tools_module w
  = (preamble w args
     ++ [SchemaValidate cfg;
         PrintLine "=== Verify circuit operation ===" [];
         Call (VerifyConfiguration_from_dict d);
         Call (Verifier_init vc);
         Call (Verifier_verify vc);
         PrintLine "SUCCESS" []],
     Ok tt).
Proof.
  intros Hrel Hargs Hcfg Hvalid Hmode Hd vc Hpassed.
  pose proof (dispatch_mode w args cfg "verify" Hmode) as Hdispatch.
  simpl in Hdispatch.
  rewrite (run_verify_reliable w Hrel cfg d Hd) in Hdispatch.
  unfold verify_report in Hdispatch. fold vc in Hdispatch. rewrite Hpassed in Hdispatch.
  exact (tools_module_valid w args Hargs cfg Hcfg _ _ Hvalid Hdispatch).
Qed.

(** ** An optimized point that is too short *)

Lemma parameters_from_dict_returns {C : Type} (w : World) (mk : value -> call)
  (from_dict : value -> C) (its : dict value) :
  (forall c, fails w c = None) ->
  parameters_from_dict (fun item => invoke w (mk item) (from_dict item)) its
  = (from_dict_events mk its, Ok (dict_of_items from_dict its)).
Proof.
  intros Hok. unfold parameters_from_dict, dict_of_items. generalize (@nil (string * C)).
  induction its as [|[k item] its IH]; simpl; intros acc; [reflexivity|].
  apply (bind_app_eq _ _ [Call (mk item)] (dict_set acc k (from_dict item))).
  - now apply bind_invoke_returns.
  - apply IH.
Qed.

(** One step of the symbolic execution when no call fails. *)
Ltac exec_returns Hok :=
  lazymatch goal with
  | |- bind (print _ _) _ = _ => apply bind_print_eq
  | |- bind (ret _) _ = _ => apply bind_ret_eq
  | |- bind (invoke _ _ _) _ = _ => apply bind_invoke_returns; [apply Hok|]
  | |- bind (getitem _ _) _ = _ => eapply bind_getitem_eq; [eassumption|]
  | |- bind (items (VTable _)) _ = _ => apply bind_ret_eq
  | |- bind (parameters_from_dict _ _) _ = _ =>
      eapply bind_app_eq; [apply (parameters_from_dict_returns _ _ _ _ Hok)|]
  end.

(** X13.  In optimize mode, when no call fails but the optimizer returns
    fewer values than there are parameters, the run dies on an uncaught
    [IndexError] at line 191, and it does so late: the netlist has already
    been written (if an output path is configured) with the short point,
    the header of the final analysis has been printed and the margin
    analysis has been constructed; the analysis itself is never run. *)
Theorem short_point_fails_after_write (w : World) (args : Args)
  (cfg : dict value) (d o : value) (its : dict value) :
  (forall c, fails w c = None) ->
  command_line w = inl args ->
  loaded_configuration w = Some cfg ->
  validation_error w cfg = None ->
  dict_get cfg "mode" = Some (VStr "optimize") ->
  dict_get cfg "verify" = Some d ->
  dict_get cfg "optimize" = Some o ->
  dict_get cfg "parameters" = Some (VTable its) ->
  let m := dict_get_default cfg "margin" (VTable []) in
  (List.length (optimized_point_of w args d m o its)
   < List.length (key_order (dict_keys its)))%nat ->
  tools_module w
  = (preamble w args ++ SchemaValidate cfg :: optimize_until_reassociation w args d m o its,
     Raise IndexError) /\
  exit_status (outcome (tools_module w)) = 1.
Proof.
  intros Hok Hargs Hcfg Hvalid Hmode Hd Ho Hps m Hshort.
  assert (Hrun : run_optimize w args cfg
                 = (optimize_until_reassociation w args d m o its, Raise IndexError)).
  { unfold optimize_until_reassociation, write_events.
    unfold optimized_point_of in *.
    set (vc := verify_configuration_of w d) in *.
    set (mc := margin_configuration_of w m) in *.
    set (oc := optimize_configuration_of w o) in *.
    set (ops := dict_of_items (optimizer_parameter_of w) its) in *.
    set (optimized_point := optimized w vc mc oc ops (verbose args) (optimizer_nominals ops)) in *.
    assert (Hnd : NoDup (dict_keys ops)).
    { unfold ops. rewrite dict_keys_dict_of_items. apply key_order_NoDup. }
    assert (Hlen : (List.length optimized_point < List.length (dict_keys ops))%nat).
    { unfold ops. now rewrite dict_keys_dict_of_items. }
    unfold run_optimize, optimize_parameters_of, margin_parameters_of.
    cbv zeta. repeat exec_returns Hok.
    fold m vc mc oc ops optimized_point.
    eapply bind_app_eq.
    { destruct (OptimizeConfiguration.output oc);
        [now apply invoke_returns | reflexivity]. }
    repeat exec_returns Hok.
    apply bind_Raise. now apply reassociate_too_short. }
  pose proof (dispatch_mode w args cfg "optimize" Hmode) as Hdispatch.
  simpl in Hdispatch. rewrite Hrun in Hdispatch.
  rewrite (tools_module_valid w args Hargs cfg Hcfg _ _ Hvalid Hdispatch).
  split; reflexivity.
Qed.

(** * The further properties on the example worlds *)

(** The second of three parameter tables is rejected: the third is never
    converted. *)
Lemma parameters_loop_stops_at_first_failure_witness :
  margin_parameters_of (example_bad_parameter "margin")
    (example_parameters ++ [("C1", VTable [("nominal", VFloat 3)])])
  = ([Call (MarginParameterConfiguration_from_dict (VTable [("nominal", VFloat 1)]));
      Call (MarginParameterConfiguration_from_dict (VTable [("nominal", VFloat 2)]))],
     Raise (ComponentError "bad parameter")).
Proof.
  refine (parameters_loop_stops_at_first_failure (example_bad_parameter "margin")
            MarginParameterConfiguration_from_dict
            (margin_parameter_of (example_bad_parameter "margin"))
            [("R1", VTable [("nominal", VFloat 1)])]
            [("C1", VTable [("nominal", VFloat 3)])]
            "L1" (VTable [("nominal", VFloat 2)]) "bad parameter" _ eq_refl).
  intros p [<-|[]]. reflexivity.
Defined.

Lemma enumerate_index_is_list_index_witness :
  list_index (dict_keys example_parameters) "L1" = Some 1%nat.
Proof.
  refine (enumerate_index_is_list_index (dict_keys example_parameters) 1 "L1"
            example_parameters_distinct _).
  simpl. right. left. reflexivity.
Defined.

(** A point that is too long is cut, a point that is too short is an
    error. *)
Lemma reassociate_by_length_witness :
  reassociate (dict_keys example_parameters) [2%float; 3%float; 4%float]
  = ([], Ok [("R1", 2%float); ("L1", 3%float)]) /\
  reassociate (dict_keys example_parameters) [7%float] = ([], Raise IndexError).
Proof.
  split.
  - exact (reassociate_by_length (dict_keys example_parameters)
             [2%float; 3%float; 4%float] example_parameters_distinct).
  - exact (reassociate_by_length (dict_keys example_parameters)
             [7%float] example_parameters_distinct).
Defined.

(** The argument parser exits with status 2 on a usage error. *)
Example usage_error_exit :
  tools_module example_usage_error = ([OsSystem ""; ParseArgs], Raise (SystemExit 2)) /\
  exit_status (outcome (tools_module example_usage_error)) = 2.
Proof. split; reflexivity. Qed.

Lemma normal_return_needs_tables_witness :
  exists args cfg mode,
    command_line (example_run "yield") = inl args /\
    loaded_configuration (example_run "yield") = Some cfg /\
    validation_error (example_run "yield") cfg = None /\
    dict_get cfg "mode" = Some (VStr mode) /\
    In mode MODES /\
    tables_present cfg mode = true.
Proof.
  refine (normal_return_needs_tables (example_run "yield") _).
  vm_compute. reflexivity.
Defined.

Lemma missing_parameters_stop_before_components_witness :
  Forall only_configuration_calls (trace (tools_module (example_without_parameters "margin"))) /\
  outcome (tools_module (example_without_parameters "margin")) <> Ok tt.
Proof.
  refine (missing_parameters_stop_before_components (example_without_parameters "margin")
            example_args _ "margin" eq_refl eq_refl eq_refl _ eq_refl).
  simpl. left. reflexivity.
Defined.

Example missing_parameters_key_error :
  outcome (tools_module (example_without_parameters "margin")) = Raise (KeyError "parameters").
Proof. vm_compute. reflexivity. Qed.

Lemma verbose_only_adds_a_line_witness :
  exists rest r,
    tools_module (with_verbose (example_run "margin") false)
    = ([OsSystem ""; ParseArgs; PrintLine "JoSIM Tools {}" [VStr "1.0"]] ++ rest, r) /\
    tools_module (with_verbose (example_run "margin") true)
    = ([OsSystem ""; ParseArgs; PrintLine "JoSIM Tools {}" [VStr "1.0"]]
       ++ PrintLine "Verbose mode enabled" [] :: rest, r).
Proof.
  refine (verbose_only_adds_a_line (example_run "margin") example_args eq_refl _).
  intros cfg Hcfg. injection Hcfg as <-. discriminate.
Defined.

(** Verify mode does not look at the parameters. *)
Lemma dispatch_reads_only_mode_tables_witness :
  dispatch (example_run "verify") example_args (example_configuration "verify")
  = dispatch (example_run "verify") example_args
      [("mode", VStr "verify"); ("verify", VTable [("circuit", VStr "circuit.cir")])].
Proof.
  refine (dispatch_reads_only_mode_tables (example_run "verify") example_args
            (example_configuration "verify")
            [("mode", VStr "verify"); ("verify", VTable [("circuit", VStr "circuit.cir")])]
            "verify" eq_refl eq_refl _).
  intros k [<-|[]]. reflexivity.
Defined.

Lemma margin_mode_analyses_nominal_values_witness :
  exists before vc mc result lower upper left_size right_size,
    trace (tools_module (example_run "margin"))
    = before
      ++ [Call (MarginAnalysis_init vc mc);
          Call (MarginAnalysis_analyse vc mc [("R1", 1%float); ("L1", 2%float)] 4);
          Call (print_margin_analysis_result result lower upper left_size right_size)] /\
    forall vc' mc' parameters n,
      ~ In (Call (MarginAnalysis_analyse vc' mc' parameters n)) before.
Proof.
  destruct (margin_mode_analyses_nominal_values (example_run "margin") example_args
              (example_configuration "margin") (VTable [("circuit", VStr "circuit.cir")])
              example_parameters (example_world_reliable _ _ _ _ _ _)
              eq_refl eq_refl eq_refl eq_refl eq_refl eq_refl example_parameters_distinct)
    as [before [Htrace Hbefore]].
  exists before. do 7 eexists. split; [exact Htrace | exact Hbefore].
Defined.

Lemma optimizer_is_fed_nominal_values_witness :
  exists before after vc mc oc ops,
    trace (tools_module (example_run "optimize"))
    = before
      ++ Call (Optimizer_init vc mc oc ops false)
      :: Call (Optimizer_optimize vc mc oc ops false [("R1", 1%float); ("L1", 2%float)])
      :: after.
Proof.
  destruct (optimizer_is_fed_nominal_values (example_run "optimize") example_args
              (example_configuration "optimize") (VTable [("circuit", VStr "circuit.cir")])
              (VTable [("output", VStr "optimized.cir")])
              example_parameters (example_world_reliable _ _ _ _ _ _)
              eq_refl eq_refl eq_refl eq_refl eq_refl eq_refl eq_refl
              example_parameters_distinct)
    as [before [after [Htrace _]]].
  exists before, after. do 4 eexists. exact Htrace.
Defined.

(** The optimizer returns one value for two parameters: the netlist is
    written with it, then the run dies. *)
Lemma short_point_fails_after_write_witness :
  outcome (tools_module example_short_optimizer) = Raise IndexError /\
  In (Call (write_file_with_updated_parameters
              {| VerifyConfiguration.settings := VTable [("circuit", VStr "circuit.cir")] |}
              "optimized.cir" [7%float]))
    (trace (tools_module example_short_optimizer)).
Proof.
  assert (Hshort :
            (List.length
               (optimized_point_of example_short_optimizer example_args
                  (VTable [("circuit", VStr "circuit.cir")])
                  (dict_get_default (example_configuration "optimize") "margin" (VTable []))
                  (VTable [("output", VStr "optimized.cir")]) example_parameters)
             < List.length (key_order (dict_keys example_parameters)))%nat)
    by (vm_compute; lia).
  destruct (short_point_fails_after_write example_short_optimizer example_args
              (example_configuration "optimize") (VTable [("circuit", VStr "circuit.cir")])
              (VTable [("output", VStr "optimized.cir")]) example_parameters
              (fun _ => eq_refl) eq_refl eq_refl eq_refl eq_refl eq_refl eq_refl eq_refl
              Hshort)
    as [Hrun _].
  rewrite Hrun. split; [reflexivity|].
  vm_compute. find_event.
Defined.

Lemma passed_verification_prints_success_only_witness :
  exists before,
    tools_module example_passing = (before ++ [PrintLine "SUCCESS" []], Ok tt).
Proof.
  eexists (_ ++ [_; _; _; _; _]).
  rewrite (passed_verification_prints_success_only example_passing example_args
             (example_configuration "verify") (VTable [("circuit", VStr "circuit.cir")])
             (example_world_reliable _ _ _ _ _ _)
             eq_refl eq_refl eq_refl eq_refl eq_refl eq_refl).
  rewrite <- app_assoc. reflexivity.
Defined.

(** A directory in place of the configuration file: the run dies on
    [IsADirectoryError] before the validation, with status 1. *)
Example directory_is_not_loaded :
  tools_module example_directory
  = ([OsSystem ""; ParseArgs; PrintLine "JoSIM Tools {}" [VStr "1.0"]; TomlLoad "circuit.toml"],
     Raise (IsADirectoryError "circuit.toml")) /\
  exit_status (outcome (tools_module example_directory)) = 1.
Proof. split; reflexivity. Qed.
